(** * inria.models.unet: U-Net segmentation models over pretrained encoders

    A shallow embedding of [inria/models/unet.py].  The module is glue code:
    everything it does is a call into pytorch_toolbelt, torch or the catalyst
    registry.  Those calls are kept as the operations of a small program
    monad; a library is any function that answers them over a world of its
    own (object store, random generator of the dropout, running statistics).
    Running a program against a library gives the result, the final world and
    the sequence of library calls that were made. *)

From Stdlib Require Import QArith.
From stdpp Require Import gmap strings list.

Local Open Scope Z_scope.

(** ** What the module imports *)

(** Objects of the libraries are opaque to the module: it only receives them,
    stores them and passes them on. *)
Class Imports := {
  Tensor : Type;
  size : Tensor → list Z;                 (* Tensor.size() *)
  EncoderModule : Type;                   (* pytorch_toolbelt ... EncoderModule *)
  UNetDecoder : Type;                     (* pytorch_toolbelt ... UNetDecoder *)
  Layer : Type;                           (* torch.nn.Module *)
  LibError : Type;                        (* what a library call raises *)
  ACT_RELU : string;
  ACT_SWISH : string;
  OUTPUT_MASK_KEY : string                (* from ..dataset *)
}.

(** The encoder classes of [pytorch_toolbelt.modules.encoders] the module
    names. *)
Inductive encoder_class :=
| Resnet18Encoder | Resnet34Encoder | Resnet50Encoder | Resnet101Encoder
| Resnet152Encoder
| DenseNet121Encoder | DenseNet161Encoder | DenseNet169Encoder
| DenseNet201Encoder
| HRNetV2Encoder18 | HRNetV2Encoder34 | HRNetV2Encoder48
| EfficientNetB0Encoder | EfficientNetB5Encoder.

(** Keyword arguments of an encoder constructor call; [None] is a keyword
    that the call does not pass. *)
Record encoder_kwargs := {
  kw_pretrained : option bool;
  kw_layers : option (list Z);
  kw_activation : option string
}.

(** [unet_channels : Union[int, List[int]]]. *)
Inductive channels_arg :=
| IntChannels (n : Z)
| ListChannels (l : list Z).

(** [partial(ABN, activation=activation)] and
    [partial(UnetBlock, abn_block=abn_block)]. *)
Inductive abn_partial := ABN (activation : string).
Inductive unet_block_partial := UnetBlock (abn_block : abn_partial).
Inductive upsample_class := UpsamplingNearest2d.

(** Decorators that appear in the module. *)
Inductive decorator := Model.

Section Module.
Context `{Imports}.

(** ** Library calls *)

Inductive call : Type → Type :=
(* E.<cls>(pretrained=, layers=, activation=) *)
| encoder_new (cls : encoder_class) (kw : encoder_kwargs) : call EncoderModule
(* encoder.change_input_channels(n); the value it returns is dropped *)
| change_input_channels (encoder : EncoderModule) (n : Z) : call unit
(* encoder.channels *)
| channels (encoder : EncoderModule) : call (list Z)
(* encoder(x) *)
| encoder_forward (encoder : EncoderModule) (x : Tensor) : call (list Tensor)
(* UNetDecoder(feature_maps=, decoder_features=, unet_block=, upsample_block=) *)
| decoder_new (feature_maps : list Z) (decoder_features : channels_arg)
    (unet_block : unet_block_partial) (upsample_block : upsample_class)
  : call UNetDecoder
(* decoder(x) *)
| decoder_forward (decoder : UNetDecoder) (x : list Tensor) : call (list Tensor)
(* nn.Dropout2d(p) *)
| Dropout2d (p : Q) : call Layer
(* conv1x1(in_channels, out_channels) *)
| conv1x1 (in_channels out_channels : Z) : call Layer
(* layer(x), as nn.Sequential does for each of its layers *)
| layer_forward (layer : Layer) (x : Tensor) : call Tensor
(* F.interpolate(x, size=, mode=, align_corners=) *)
| interpolate (x : Tensor) (size : list Z) (mode : string) (align_corners : bool)
  : call Tensor
(* catalyst.registry.Model(f), f given by its __name__ *)
| registry_Model (name : string) : call unit
(* from <module> import <names>, executed when the module is imported *)
| import_from (module : string) (names : list string) : call unit.

(** ** Exceptions *)

(** An exception is either raised inside a library call or by the
    interpreter at a subscript of the module's own code. *)
Inductive exn :=
| LibraryError (e : LibError)
| TypeError          (* 'int' object is not subscriptable *)
| IndexError.        (* list index out of range *)

(** ** Programs *)

Inductive prog (A : Type) : Type :=
| Ret (a : A)
| Raise (e : exn)
| Call {R : Type} (c : call R) (k : R → prog A).
Arguments Ret {A} a.
Arguments Raise {A} e.
Arguments Call {A R} c k.

Fixpoint prog_bind {A B : Type} (f : A → prog B) (m : prog A) : prog B :=
  match m with
  | Ret a => f a
  | Raise e => Raise e
  | Call c k => Call c (λ r, prog_bind f (k r))
  end.

#[export] Instance prog_ret : MRet prog := @Ret.
#[export] Instance prog_mbind : MBind prog := @prog_bind.

Definition call_ {R : Type} (c : call R) : prog R := Call c Ret.

(** One library call with its outcome. *)
Inductive event :=
| Ev {R : Type} (c : call R) (r : LibError + R).

Definition ev_failed (e : event) : bool :=
  match e with
  | Ev _ (inl _) => true
  | Ev _ (inr _) => false
  end.

(** A library answers every call from its world, and may change the world. *)
Definition library (World : Type) : Type :=
  ∀ R : Type, call R → World → (LibError + R) * World.

Section Run.
Context {World : Type} (lib : library World).

Fixpoint run {A : Type} (m : prog A) (w : World)
  : (exn + A) * World * list event :=
  match m with
  | Ret a => (inr a, w, [])
  | Raise e => (inl e, w, [])
  | Call c k =>
      match lib _ c w with
      | (inl e, w') => (inl (LibraryError e), w', [Ev c (inl e)])
      | (inr r, w') =>
          let '(res, w'', tr) := run (k r) w' in (res, w'', Ev c (inr r) :: tr)
      end
  end.

End Run.

(** ** Subscripts *)

(** [unet_channels[0]]. *)
Definition unet_channels_getitem0 (unet_channels : channels_arg) : prog Z :=
  match unet_channels with
  | IntChannels _ => Raise TypeError
  | ListChannels [] => Raise IndexError
  | ListChannels (c :: _) => Ret c
  end.

(** [x[0]] for a list [x]. *)
Definition list_getitem0 {A : Type} (x : list A) : prog A :=
  match x with
  | [] => Raise IndexError
  | a :: _ => Ret a
  end.

(** ** The model class *)

(** The attributes [__init__] sets.  [mask] is the [nn.Sequential] built from
    an [OrderedDict]: named layers, in insertion order. *)
Record UnetSegmentationModel := {
  encoder : EncoderModule;
  decoder : UNetDecoder;
  mask : list (string * Layer);
  full_size_mask : bool
}.

(** [nn.Sequential.forward]: each layer is applied to the output of the one
    before it. *)
Fixpoint sequential_forward (layers : list (string * Layer)) (x : Tensor)
  : prog Tensor :=
  match layers with
  | [] => Ret x
  | (_, l) :: rest => y ← call_ (layer_forward l x); sequential_forward rest y
  end.

(** [UnetSegmentationModel.__init__]; an argument that is [None] is left to
    its default.  The calls are in the order Python evaluates them:
    [encoder.channels] and [UNetDecoder(...)], then, inside the list given to
    [OrderedDict], [nn.Dropout2d(dropout)], the subscript [unet_channels[0]]
    and [conv1x1(...)].  [super().__init__()], the two [partial]s, the
    containers and the attribute assignments build the object and are its
    record. *)
Definition __init__ (encoder : EncoderModule) (unet_channels : channels_arg)
    (num_classes : option Z) (dropout : option Q)
    (full_size_mask : option bool) (activation : option string)
  : prog UnetSegmentationModel :=
  let num_classes := default 1 num_classes in
  let dropout := default 0.25%Q dropout in
  let full_size_mask := default true full_size_mask in
  let activation := default ACT_RELU activation in
  let abn_block := ABN activation in
  feature_maps ← call_ (channels encoder);
  decoder ← call_ (decoder_new feature_maps unet_channels
                     (UnetBlock abn_block) UpsamplingNearest2d);
  drop ← call_ (Dropout2d dropout);
  c0 ← unet_channels_getitem0 unet_channels;
  conv ← call_ (conv1x1 c0 num_classes);
  mret {| encoder := encoder;
          decoder := decoder;
          mask := [("drop"%string, drop); ("conv"%string, conv)];
          full_size_mask := full_size_mask |}.

(** [UnetSegmentationModel.forward]. *)
Definition forward (self : UnetSegmentationModel) (x : Tensor)
  : prog (gmap string Tensor) :=
  let x_size := size x in
  x ← call_ (encoder_forward (encoder self) x);
  x ← call_ (decoder_forward (decoder self) x);
  x0 ← list_getitem0 x;
  mask ← sequential_forward (mask self) x0;
  mask ← (if full_size_mask self
          then call_ (interpolate mask (drop 2 x_size) "bilinear" false)
          else mret mask);
  let output : gmap string Tensor := {[ OUTPUT_MASK_KEY := mask ]} in
  mret output.

(** ** The factories *)

(** Every factory takes its four parameters by keyword; [None] is a parameter
    the caller leaves to its default.  [if input_channels != 3: ...] has no
    else branch. *)

Definition resnet18_unet32 (input_channels num_classes : option Z)
    (dropout : option Q) (pretrained : option bool)
  : prog UnetSegmentationModel :=
  let input_channels := default 3 input_channels in
  let num_classes := default 1 num_classes in
  let dropout := default 0.0%Q dropout in
  let pretrained := default true pretrained in
  encoder ← call_ (encoder_new Resnet18Encoder
               {| kw_pretrained := Some pretrained;
                  kw_layers := Some [0; 1; 2; 3; 4];
                  kw_activation := None |});
  _ ← (if bool_decide (input_channels ≠ 3)
       then call_ (change_input_channels encoder input_channels)
       else mret ());
  __init__ encoder (ListChannels [32; 64; 128; 256]) (Some num_classes) (Some dropout)
    None None.

Definition resnet34_unet32 (input_channels num_classes : option Z)
    (dropout : option Q) (pretrained : option bool)
  : prog UnetSegmentationModel :=
  let input_channels := default 3 input_channels in
  let num_classes := default 1 num_classes in
  let dropout := default 0.0%Q dropout in
  let pretrained := default true pretrained in
  encoder ← call_ (encoder_new Resnet34Encoder
               {| kw_pretrained := Some pretrained;
                  kw_layers := Some [0; 1; 2; 3; 4];
                  kw_activation := None |});
  _ ← (if bool_decide (input_channels ≠ 3)
       then call_ (change_input_channels encoder input_channels)
       else mret ());
  __init__ encoder (ListChannels [32; 64; 128; 256]) (Some num_classes) (Some dropout)
    None None.

Definition resnet50_unet32 (input_channels num_classes : option Z)
    (dropout : option Q) (pretrained : option bool)
  : prog UnetSegmentationModel :=
  let input_channels := default 3 input_channels in
  let num_classes := default 1 num_classes in
  let dropout := default 0.0%Q dropout in
  let pretrained := default true pretrained in
  encoder ← call_ (encoder_new Resnet50Encoder
               {| kw_pretrained := Some pretrained;
                  kw_layers := Some [0; 1; 2; 3; 4];
                  kw_activation := None |});
  _ ← (if bool_decide (input_channels ≠ 3)
       then call_ (change_input_channels encoder input_channels)
       else mret ());
  __init__ encoder (ListChannels [32; 64; 128; 256]) (Some num_classes) (Some dropout)
    None None.

Definition resnet101_unet64 (input_channels num_classes : option Z)
    (dropout : option Q) (pretrained : option bool)
  : prog UnetSegmentationModel :=
  let input_channels := default 3 input_channels in
  let num_classes := default 1 num_classes in
  let dropout := default 0.5%Q dropout in
  let pretrained := default true pretrained in
  encoder ← call_ (encoder_new Resnet101Encoder
               {| kw_pretrained := Some pretrained;
                  kw_layers := Some [0; 1; 2; 3; 4];
                  kw_activation := None |});
  _ ← (if bool_decide (input_channels ≠ 3)
       then call_ (change_input_channels encoder input_channels)
       else mret ());
  __init__ encoder (ListChannels [64; 128; 256; 512]) (Some num_classes) (Some dropout)
    None None.

Definition resnet152_unet32 (input_channels num_classes : option Z)
    (dropout : option Q) (pretrained : option bool)
  : prog UnetSegmentationModel :=
  let input_channels := default 3 input_channels in
  let num_classes := default 1 num_classes in
  let dropout := default 0.0%Q dropout in
  let pretrained := default true pretrained in
  encoder ← call_ (encoder_new Resnet152Encoder
               {| kw_pretrained := Some pretrained;
                  kw_layers := Some [0; 1; 2; 3; 4];
                  kw_activation := None |});
  _ ← (if bool_decide (input_channels ≠ 3)
       then call_ (change_input_channels encoder input_channels)
       else mret ());
  __init__ encoder (ListChannels [32; 64; 128; 256]) (Some num_classes) (Some dropout)
    None None.

Definition densenet121_unet32 (input_channels num_classes : option Z)
    (dropout : option Q) (pretrained : option bool)
  : prog UnetSegmentationModel :=
  let input_channels := default 3 input_channels in
  let num_classes := default 1 num_classes in
  let dropout := default 0.0%Q dropout in
  let pretrained := default true pretrained in
  encoder ← call_ (encoder_new DenseNet121Encoder
               {| kw_pretrained := Some pretrained;
                  kw_layers := Some [0; 1; 2; 3; 4];
                  kw_activation := None |});
  _ ← (if bool_decide (input_channels ≠ 3)
       then call_ (change_input_channels encoder input_channels)
       else mret ());
  __init__ encoder (ListChannels [32; 64; 128; 256]) (Some num_classes) (Some dropout)
    None None.

Definition densenet161_unet32 (input_channels num_classes : option Z)
    (dropout : option Q) (pretrained : option bool)
  : prog UnetSegmentationModel :=
  let input_channels := default 3 input_channels in
  let num_classes := default 1 num_classes in
  let dropout := default 0.0%Q dropout in
  let pretrained := default true pretrained in
  encoder ← call_ (encoder_new DenseNet161Encoder
               {| kw_pretrained := Some pretrained;
                  kw_layers := Some [0; 1; 2; 3; 4];
                  kw_activation := None |});
  _ ← (if bool_decide (input_channels ≠ 3)
       then call_ (change_input_channels encoder input_channels)
       else mret ());
  __init__ encoder (ListChannels [32; 64; 128; 256]) (Some num_classes) (Some dropout)
    None None.

Definition densenet169_unet32 (input_channels num_classes : option Z)
    (dropout : option Q) (pretrained : option bool)
  : prog UnetSegmentationModel :=
  let input_channels := default 3 input_channels in
  let num_classes := default 1 num_classes in
  let dropout := default 0.0%Q dropout in
  let pretrained := default true pretrained in
  encoder ← call_ (encoder_new DenseNet169Encoder
               {| kw_pretrained := Some pretrained;
                  kw_layers := Some [0; 1; 2; 3; 4];
                  kw_activation := None |});
  _ ← (if bool_decide (input_channels ≠ 3)
       then call_ (change_input_channels encoder input_channels)
       else mret ());
  __init__ encoder (ListChannels [32; 64; 128; 256]) (Some num_classes) (Some dropout)
    None None.

Definition densenet201_unet32 (input_channels num_classes : option Z)
    (dropout : option Q) (pretrained : option bool)
  : prog UnetSegmentationModel :=
  let input_channels := default 3 input_channels in
  let num_classes := default 1 num_classes in
  let dropout := default 0.0%Q dropout in
  let pretrained := default true pretrained in
  encoder ← call_ (encoder_new DenseNet201Encoder
               {| kw_pretrained := Some pretrained;
                  kw_layers := Some [0; 1; 2; 3; 4];
                  kw_activation := None |});
  _ ← (if bool_decide (input_channels ≠ 3)
       then call_ (change_input_channels encoder input_channels)
       else mret ());
  __init__ encoder (ListChannels [32; 64; 128; 256]) (Some num_classes) (Some dropout)
    None None.

Definition hrnet18_unet32 (input_channels num_classes : option Z)
    (dropout : option Q) (pretrained : option bool)
  : prog UnetSegmentationModel :=
  let input_channels := default 3 input_channels in
  let num_classes := default 1 num_classes in
  let dropout := default 0.0%Q dropout in
  let pretrained := default true pretrained in
  encoder ← call_ (encoder_new HRNetV2Encoder18
               {| kw_pretrained := Some pretrained;
                  kw_layers := None;
                  kw_activation := None |});
  _ ← (if bool_decide (input_channels ≠ 3)
       then call_ (change_input_channels encoder input_channels)
       else mret ());
  __init__ encoder (ListChannels [32; 64; 128; 256]) (Some num_classes) (Some dropout)
    None None.

Definition hrnet34_unet32 (input_channels num_classes : option Z)
    (dropout : option Q) (pretrained : option bool)
  : prog UnetSegmentationModel :=
  let input_channels := default 3 input_channels in
  let num_classes := default 1 num_classes in
  let dropout := default 0.0%Q dropout in
  let pretrained := default true pretrained in
  encoder ← call_ (encoder_new HRNetV2Encoder34
               {| kw_pretrained := Some pretrained;
                  kw_layers := None;
                  kw_activation := None |});
  _ ← (if bool_decide (input_channels ≠ 3)
       then call_ (change_input_channels encoder input_channels)
       else mret ());
  __init__ encoder (ListChannels [32; 64; 128; 256]) (Some num_classes) (Some dropout)
    None None.

Definition hrnet48_unet32 (input_channels num_classes : option Z)
    (dropout : option Q) (pretrained : option bool)
  : prog UnetSegmentationModel :=
  let input_channels := default 3 input_channels in
  let num_classes := default 1 num_classes in
  let dropout := default 0.0%Q dropout in
  let pretrained := default true pretrained in
  encoder ← call_ (encoder_new HRNetV2Encoder48
               {| kw_pretrained := Some pretrained;
                  kw_layers := None;
                  kw_activation := None |});
  _ ← (if bool_decide (input_channels ≠ 3)
       then call_ (change_input_channels encoder input_channels)
       else mret ());
  __init__ encoder (ListChannels [32; 64; 128; 256]) (Some num_classes) (Some dropout)
    None None.

Definition b0_unet32 (input_channels num_classes : option Z)
    (dropout : option Q) (pretrained : option bool)
  : prog UnetSegmentationModel :=
  let input_channels := default 3 input_channels in
  let num_classes := default 1 num_classes in
  let dropout := default 0.0%Q dropout in
  let pretrained := default true pretrained in
  encoder ← call_ (encoder_new EfficientNetB0Encoder
               {| kw_pretrained := None;
                  kw_layers := None;
                  kw_activation := None |});
  _ ← (if bool_decide (input_channels ≠ 3)
       then call_ (change_input_channels encoder input_channels)
       else mret ());
  __init__ encoder (ListChannels [32; 64; 128]) (Some num_classes) (Some dropout)
    None (Some ACT_SWISH).

Definition b5_unet32 (input_channels num_classes : option Z)
    (dropout : option Q) (pretrained : option bool)
  : prog UnetSegmentationModel :=
  let input_channels := default 3 input_channels in
  let num_classes := default 1 num_classes in
  let dropout := default 0.0%Q dropout in
  let pretrained := default true pretrained in
  encoder ← call_ (encoder_new EfficientNetB5Encoder
               {| kw_pretrained := None;
                  kw_layers := None;
                  kw_activation := None |});
  _ ← (if bool_decide (input_channels ≠ 3)
       then call_ (change_input_channels encoder input_channels)
       else mret ());
  __init__ encoder (ListChannels [32; 64; 128]) (Some num_classes) (Some dropout)
    None (Some ACT_SWISH).

Definition b5_unet32_relu (input_channels num_classes : option Z)
    (dropout : option Q) (pretrained : option bool)
  : prog UnetSegmentationModel :=
  let input_channels := default 3 input_channels in
  let num_classes := default 1 num_classes in
  let dropout := default 0.0%Q dropout in
  let pretrained := default true pretrained in
  encoder ← call_ (encoder_new EfficientNetB5Encoder
               {| kw_pretrained := None;
                  kw_layers := None;
                  kw_activation := Some ACT_RELU |});
  _ ← (if bool_decide (input_channels ≠ 3)
       then call_ (change_input_channels encoder input_channels)
       else mret ());
  __init__ encoder (ListChannels [32; 64; 128]) (Some num_classes) (Some dropout)
    None (Some ACT_RELU).

(** ** The module body *)

(** A top-level [def] with the decorators written above it. *)
Record funcdef := {
  fn_name : string;
  fn_decorators : list decorator;
  fn_body : option Z → option Z → option Q → option bool
            → prog UnetSegmentationModel
}.

(** The [def] statements of the module, in source order. *)
Definition module_functions : list funcdef := [

  {| fn_name := "resnet18_unet32"; fn_decorators := [Model];
     fn_body := resnet18_unet32 |};
  {| fn_name := "resnet34_unet32"; fn_decorators := [Model];
     fn_body := resnet34_unet32 |};
  {| fn_name := "resnet50_unet32"; fn_decorators := [Model];
     fn_body := resnet50_unet32 |};
  {| fn_name := "resnet101_unet64"; fn_decorators := [Model];
     fn_body := resnet101_unet64 |};
  {| fn_name := "resnet152_unet32"; fn_decorators := [Model];
     fn_body := resnet152_unet32 |};
  {| fn_name := "densenet121_unet32"; fn_decorators := [Model];
     fn_body := densenet121_unet32 |};
  {| fn_name := "densenet161_unet32"; fn_decorators := [Model];
     fn_body := densenet161_unet32 |};
  {| fn_name := "densenet169_unet32"; fn_decorators := [Model];
     fn_body := densenet169_unet32 |};
  {| fn_name := "densenet201_unet32"; fn_decorators := [Model];
     fn_body := densenet201_unet32 |};
  {| fn_name := "hrnet18_unet32"; fn_decorators := [Model];
     fn_body := hrnet18_unet32 |};
  {| fn_name := "hrnet34_unet32"; fn_decorators := [Model];
     fn_body := hrnet34_unet32 |};
  {| fn_name := "hrnet48_unet32"; fn_decorators := [Model];
     fn_body := hrnet48_unet32 |};
  {| fn_name := "b0_unet32"; fn_decorators := [Model];
     fn_body := b0_unet32 |};
  {| fn_name := "b5_unet32"; fn_decorators := [Model];
     fn_body := b5_unet32 |};
  {| fn_name := "b5_unet32_relu"; fn_decorators := [Model];
     fn_body := b5_unet32_relu |}

]%string.

Definition __all__ : list string := [
  "UnetSegmentationModel";
  "resnet18_unet32";
  "resnet34_unet32";
  "resnet50_unet32";
  "resnet101_unet64";
  "resnet152_unet32";
  "densenet121_unet32";
  "densenet161_unet32";
  "densenet169_unet32";
  "densenet201_unet32";
  "b0_unet32";
  "b5_unet32";
  "b5_unet32_relu"
]%string.

(** Executing a decorated [def] calls each decorator on the new function. *)
Definition apply_decorator (name : string) (d : decorator) : prog unit :=
  match d with
  | Model => call_ (registry_Model name)
  end.

Fixpoint exec_all (ps : list (prog unit)) : prog unit :=
  match ps with
  | [] => mret ()
  | p :: rest => _ ← p; exec_all rest
  end.

Definition exec_def (f : funcdef) : prog unit :=
  exec_all (apply_decorator (fn_name f) <$> rev (fn_decorators f)).

(** The [def] statements of the module (lines 74 to 219), executed in
    order: the part of an import that comes after the import statements. *)
Definition import_module : prog unit :=
  exec_all (exec_def <$> module_functions).

(** The import statements of the module (lines 1 to 13), in order, each with
    the names it binds; [encoders] is bound as [E], [functional] as [F]. *)
Definition import_statements : list (string * list string) := [
  ("collections", ["OrderedDict"]);
  ("functools", ["partial"]);
  ("typing", ["Union"; "List"; "Dict"]);
  ("pytorch_toolbelt.modules",
   ["conv1x1"; "UnetBlock"; "ACT_RELU"; "ABN"; "ACT_SWISH"]);
  ("pytorch_toolbelt.modules", ["encoders"]);
  ("pytorch_toolbelt.modules.decoders", ["UNetDecoder"]);
  ("pytorch_toolbelt.modules.encoders", ["EncoderModule"]);
  ("torch", ["nn"; "Tensor"]);
  ("torch.nn", ["functional"]);
  ("..dataset", ["OUTPUT_MASK_KEY"]);
  ("catalyst.registry", ["Model"])
]%string.

(** The whole module, as an import executes it: the import statements, then
    the assignment of [__all__] and the class statement, which call nothing,
    then the [def] statements. *)
Definition module_body : prog unit :=
  _ ← exec_all ((λ i, call_ (import_from i.1 i.2)) <$> import_statements);
  import_module.

(** ** The shape the factories share

    What the fifteen bodies have in common, with what varies from one to the
    other as parameters: the encoder class, the keywords of its constructor
    call (as a function of [pretrained]), the decoder widths, the activation
    (passed or left to the default of [__init__]) and the default of
    [dropout]. *)
Definition factory_template (cls : encoder_class)
    (constructor_kwargs : bool → encoder_kwargs) (unet_channels : list Z)
    (activation : option string) (dropout_default : Q)
    (input_channels num_classes : option Z)
    (dropout : option Q) (pretrained : option bool)
  : prog UnetSegmentationModel :=
  let input_channels := default 3 input_channels in
  let num_classes := default 1 num_classes in
  let dropout := default dropout_default dropout in
  let pretrained := default true pretrained in
  encoder ← call_ (encoder_new cls (constructor_kwargs pretrained));
  _ ← (if bool_decide (input_channels ≠ 3)
       then call_ (change_input_channels encoder input_channels)
       else mret ());
  __init__ encoder (ListChannels unet_channels) (Some num_classes)
    (Some dropout) None activation.

(** The three ways the module calls an encoder constructor. *)
Definition kwargs_pretrained_layers (pretrained : bool) : encoder_kwargs :=
  {| kw_pretrained := Some pretrained;
     kw_layers := Some [0; 1; 2; 3; 4];
     kw_activation := None |}.

Definition kwargs_pretrained (pretrained : bool) : encoder_kwargs :=
  {| kw_pretrained := Some pretrained;
     kw_layers := None;
     kw_activation := None |}.

Definition kwargs_fixed (activation : option string) (_ : bool)
  : encoder_kwargs :=
  {| kw_pretrained := None; kw_layers := None; kw_activation := activation |}.

Definition efficientnet_factories : list string :=
  ["b0_unet32"; "b5_unet32"; "b5_unet32_relu"]%string.

Definition hrnet_factories : list string :=
  ["hrnet18_unet32"; "hrnet34_unet32"; "hrnet48_unet32"]%string.

(** ** Reading runs and traces *)

Definition failed {A : Type} (res : exn + A) : bool :=
  match res with
  | inl _ => true
  | inr _ => false
  end.

(** The [change_input_channels] calls of a trace, with their arguments. *)
Definition change_input_channels_calls (tr : list event)
  : list (EncoderModule * Z) :=
  flat_map (λ e, match e with
                 | Ev c _ =>
                     match c with
                     | change_input_channels enc n => [(enc, n)]
                     | _ => []
                     end
                 end) tr.

(** The [F.interpolate] calls of a trace. *)
Definition interpolate_calls (tr : list event)
  : list (Tensor * list Z * string * bool) :=
  flat_map (λ e, match e with
                 | Ev c _ =>
                     match c with
                     | interpolate x sz mode ac => [(x, sz, mode, ac)]
                     | _ => []
                     end
                 end) tr.

(** The [decoder_features] of the [UNetDecoder] constructor calls of a
    trace. *)
Definition decoder_features_calls (tr : list event) : list channels_arg :=
  flat_map (λ e, match e with
                 | Ev c _ =>
                     match c with
                     | decoder_new _ decoder_features _ _ => [decoder_features]
                     | _ => []
                     end
                 end) tr.

(** The names handed to the registry decorator, in call order. *)
Definition registry_calls (tr : list event) : list string :=
  flat_map (λ e, match e with
                 | Ev c _ =>
                     match c with
                     | registry_Model name => [name]
                     | _ => []
                     end
                 end) tr.

(** The encoder constructor call a program starts with, if it starts with
    one. *)
Definition encoder_constructor_call {A : Type} (m : prog A)
  : option (encoder_class * encoder_kwargs) :=
  match m with
  | Call c _ =>
      match c with
      | encoder_new cls kw => Some (cls, kw)
      | _ => None
      end
  | _ => None
  end.

(** "Every factory forwards its pretrained parameter to the backbone
    constructor it instantiates." *)
Definition forwards_pretrained (f : funcdef) : Prop :=
  ∀ (input_channels num_classes : option Z) (dropout : option Q)
    (pretrained : option bool),
    ∃ cls kw,
      encoder_constructor_call
        (fn_body f input_channels num_classes dropout pretrained)
      = Some (cls, kw)
      ∧ kw_pretrained kw = Some (default true pretrained).

(** "Differs from the others only in the backbone class instantiated and in
    the channel-width list, activation, and dropout values passed on": the
    keywords of the encoder constructor call are the same in every
    factory. *)
Definition shared_constructor_keywords : Prop :=
  ∃ kw : bool → encoder_kwargs,
    ∀ f, f ∈ module_functions →
      ∀ (input_channels num_classes : option Z) (dropout : option Q)
        (pretrained : option bool),
        ∃ cls,
          encoder_constructor_call
            (fn_body f input_channels num_classes dropout pretrained)
          = Some (cls, kw (default true pretrained)).


(** A failure that is the failure of a library call: the call is the last
    one made and its exception is the one the program ends with. *)
Definition library_failure {A : Type} (res : exn + A) (tr : list event)
  : Prop :=
  ∃ (e : LibError) (R : Type) (c : call R) (tr0 : list event),
    res = inl (LibraryError e)
    ∧ tr = tr0 ++ [Ev c (inl e)]
    ∧ existsb ev_failed tr0 = false.

(** ** What the module relies on from torch

    Properties of the library calls that the statements about shapes
    assume.  A tensor of a 2D network has size [N; C; H; W]: [size x !! 1] is
    its number of channels and [drop 2 (size x)] its spatial size. *)

(** [F.interpolate(x, size=sz, ...)] returns a tensor of spatial size [sz]
    with the batch size and channels of [x]. *)
Definition interpolate_contract {World : Type} (lib : library World) : Prop :=
  ∀ x sz mode ac w y w',
    lib _ (interpolate x sz mode ac) w = (inr y, w') →
    drop 2 (size y) = sz ∧ take 2 (size y) = take 2 (size x).

(** A layer that keeps the spatial size of its input. *)
Definition keeps_spatial_size {World : Type} (lib : library World)
    (layer : Layer) : Prop :=
  ∀ x w y w',
    lib _ (layer_forward layer x) w = (inr y, w') →
    drop 2 (size y) = drop 2 (size x).

(** The output of a [conv1x1(cin, cout)] layer has [cout] channels. *)
Definition conv1x1_contract {World : Type} (lib : library World) : Prop :=
  ∀ cin cout w0 layer w0',
    lib _ (conv1x1 cin cout) w0 = (inr layer, w0') →
    ∀ x w y w',
      lib _ (layer_forward layer x) w = (inr y, w') →
      size y !! 1%nat = Some cout.

End Module.

Arguments Ret {_ _} a.
Arguments Raise {_ _} e.
Arguments Call {_ _ _} c k.

(** ** More readings of a trace *)

Section Traces.
Context `{Imports}.


(** The [conv1x1] constructor calls of a trace, with their arguments. *)
Definition conv1x1_calls (tr : list event) : list (Z * Z) :=
  flat_map (λ e, match e with
                 | Ev c _ =>
                     match c with
                     | conv1x1 cin cout => [(cin, cout)]
                     | _ => []
                     end
                 end) tr.

(** The modules imported in a trace, in call order. *)
Definition import_calls (tr : list event) : list string :=
  flat_map (λ e, match e with
                 | Ev c _ =>
                     match c with
                     | import_from module _ => [module]
                     | _ => []
                     end
                 end) tr.

(** The modules whose import raised. *)
Definition failed_imports (tr : list event) : list string :=
  flat_map (λ e, match e with
                 | Ev c r =>
                     let raised := match r with
                                   | inl _ => true
                                   | inr _ => false
                                   end in
                     match c with
                     | import_from module _ => if raised then [module] else []
                     | _ => []
                     end
                 end) tr.


End Traces.

(** ** A reference library that computes shapes

    A concrete library against which the module can be run: a tensor is its
    shape, an encoder is an object in a store that [change_input_channels]
    updates in place, and every call does what the real one does to shapes
    and raises where the real one rejects its arguments. *)
Module ShapeLib.

Inductive layer :=
| DropoutLayer (p : Q)
| ConvLayer (in_channels out_channels : Z).

Definition imports : Imports := {|
  Tensor := list Z;
  size := λ x, x;
  EncoderModule := nat;
  UNetDecoder := list Z;
  Layer := layer;
  LibError := string;
  ACT_RELU := "relu";
  ACT_SWISH := "swish";
  OUTPUT_MASK_KEY := "mask"
|}.
#[local] Existing Instance imports.

Record encoder_state := {
  es_class : encoder_class;
  es_input_channels : Z;
  es_channels : list Z;             (* channels of the feature maps *)
  es_strides : list Z               (* and their strides *)
}.

Record world := {
  store : list encoder_state;       (* encoder objects, by identity *)
  registry : list string;           (* names registered with Model *)
  missing : list string             (* modules that cannot be imported *)
}.

Definition empty_world : world :=
  {| store := []; registry := []; missing := [] |}.

Definition class_channels (cls : encoder_class) : list Z :=
  match cls with
  | Resnet18Encoder | Resnet34Encoder => [64; 64; 128; 256; 512]
  | Resnet50Encoder | Resnet101Encoder | Resnet152Encoder =>
      [64; 256; 512; 1024; 2048]
  | DenseNet121Encoder => [64; 128; 256; 512; 1024]
  | DenseNet161Encoder => [96; 192; 384; 1056; 2208]
  | DenseNet169Encoder => [64; 128; 256; 640; 1664]
  | DenseNet201Encoder => [64; 128; 256; 896; 1920]
  | HRNetV2Encoder18 => [64; 18; 36; 72; 144]
  | HRNetV2Encoder34 => [64; 34; 68; 136; 272]
  | HRNetV2Encoder48 => [64; 48; 96; 192; 384]
  | EfficientNetB0Encoder => [24; 40; 112; 320]
  | EfficientNetB5Encoder => [40; 64; 176; 512]
  end.

Definition class_strides (cls : encoder_class) : list Z :=
  match cls with
  | EfficientNetB0Encoder | EfficientNetB5Encoder => [4; 8; 16; 32]
  | _ => [2; 4; 8; 16; 32]
  end.

(** [layers=[i, j, ...]] keeps the feature maps of these ranks. *)
Fixpoint select_layers {A : Type} (layers : list Z) (maps : list A)
  : option (list A) :=
  match layers with
  | [] => Some []
  | i :: layers' =>
      if bool_decide (0 ≤ i)
      then m ← maps !! Z.to_nat i;
           rest ← select_layers layers' maps;
           Some (m :: rest)
      else None
  end.

(** A feature map of stride [s] of an [h] x [w] image is [h / s] x [w / s]. *)
Definition pyramid (n h w : Z) (chs strides : list Z) : list (list Z) :=
  zip_with (λ c s, [n; c; h / s; w / s]) chs strides.

(** The decoder gives one map per width, at the resolution of the encoder
    map of the same rank. *)
Fixpoint fuse (widths : list Z) (feats : list (list Z)) : option (list (list Z)) :=
  match widths, feats with
  | [], _ => Some []
  | c :: widths', [n; _; h; w] :: feats' =>
      rest ← fuse widths' feats'; Some ([n; c; h; w] :: rest)
  | _, _ => None
  end.

Definition lib : library world := λ R c,
  match c in call R return world → (string + R) * world with
  | encoder_new cls kw => λ w,
      let layers := default (Z.of_nat <$> seq 0 (length (class_channels cls)))
                      (kw_layers kw) in
      match select_layers layers (class_channels cls),
            select_layers layers (class_strides cls) with
      | Some chs, Some strides =>
          (inr (length (store w)),
           {| store := store w ++ [ {| es_class := cls;
                                       es_input_channels := 3;
                                       es_channels := chs;
                                       es_strides := strides |} ];
              registry := registry w;
              missing := missing w |})
      | _, _ => (inl "encoder: no such layer", w)
      end
  | change_input_channels enc n => λ w,
      match store w !! enc with
      | Some st =>
          if bool_decide (0 ≤ n)%Z
          then (inr (),
                {| store := <[enc := {| es_class := es_class st;
                                        es_input_channels := n;
                                        es_channels := es_channels st;
                                        es_strides := es_strides st |}]>
                              (store w);
                   registry := registry w;
                   missing := missing w |})
          else (inl "change_input_channels: negative channel count", w)
      | None => (inl "no such encoder", w)
      end
  | channels enc => λ w,
      match store w !! enc with
      | Some st => (inr (es_channels st), w)
      | None => (inl "no such encoder", w)
      end
  | encoder_forward enc x => λ w,
      match store w !! enc, x with
      | Some st, [n; c; h; wd] =>
          if bool_decide (c = es_input_channels st)
          then (inr (pyramid n h wd (es_channels st) (es_strides st)), w)
          else (inl "encoder: wrong number of input channels", w)
      | Some _, _ => (inl "encoder: expected a 4D input", w)
      | None, _ => (inl "no such encoder", w)
      end
  | decoder_new feature_maps decoder_features _ _ => λ w,
      match decoder_features with
      | ListChannels l =>
          if bool_decide (Z.of_nat (length l)
                          = Z.of_nat (length feature_maps) - 1)
          then (inr l, w)
          else (inl "decoder: one width per block is needed", w)
      | IntChannels n => (inl "decoder: decoder_features has no len()", w)
      end
  | decoder_forward dec feats => λ w,
      match fuse dec feats with
      | Some out => (inr out, w)
      | None => (inl "decoder: feature maps do not match", w)
      end
  | Dropout2d p => λ w,
      if Qle_bool 0 p && Qle_bool p 1
      then (inr (DropoutLayer p), w)
      else (inl "dropout probability has to be between 0 and 1", w)
  | conv1x1 cin cout => λ w, (inr (ConvLayer cin cout), w)
  | layer_forward l x => λ w,
      match l, x with
      | DropoutLayer _, _ => (inr x, w)
      | ConvLayer cin cout, [n; c; h; wd] =>
          if bool_decide (c = cin)
          then (inr [n; cout; h; wd], w)
          else (inl "conv: wrong number of input channels", w)
      | ConvLayer _ _, _ => (inl "conv: expected a 4D input", w)
      end
  | interpolate x sz mode _ => λ w,
      match x, sz with
      | [n; c; _; _], [h; wd] =>
          if bool_decide (mode = "bilinear")
          then (inr [n; c; h; wd], w)
          else (inl "interpolate: unsupported mode", w)
      | _, _ => (inl "interpolate: size does not match the input", w)
      end
  | registry_Model name => λ w,
      if bool_decide (name ∈ registry w)
      then (inl "factory already registered", w)
      else (inr (), {| store := store w;
                       registry := registry w ++ [name];
                       missing := missing w |})
  | import_from module names => λ w,
      if bool_decide (module ∈ missing w)
      then (inl ("No module named " +:+ module), w)
      else (inr (), w)
  end%string.

(** The world after [Resnet18Encoder] has been constructed in the empty one,
    the model [__init__] builds there from the arguments of [resnet18_unet32],
    and a batch of two RGB images. *)
Definition resnet18_world : world :=
  {| store := [ {| es_class := Resnet18Encoder;
                   es_input_channels := 3;
                   es_channels := class_channels Resnet18Encoder;
                   es_strides := class_strides Resnet18Encoder |} ];
     registry := []; missing := [] |}.

Definition resnet18_model : UnetSegmentationModel :=
  {| encoder := 0%nat;
     decoder := [32; 64; 128; 256];
     mask := [("drop"%string, DropoutLayer 0.0%Q);
              ("conv"%string, ConvLayer 32 1)];
     full_size_mask := true |}.

Definition images : list Z := [2; 3; 512; 512].

Definition resnet18_init_trace : list event :=
  [Ev (channels 0%nat) (inr [64; 64; 128; 256; 512]);
   Ev (decoder_new [64; 64; 128; 256; 512] (ListChannels [32; 64; 128; 256])
         (UnetBlock (ABN "relu")) UpsamplingNearest2d)
      (inr [32; 64; 128; 256]);
   Ev (Dropout2d 0.0%Q) (inr (DropoutLayer 0.0%Q));
   Ev (conv1x1 32 1) (inr (ConvLayer 32 1))].

Definition resnet18_forward_trace : list event :=
  [Ev (encoder_forward 0%nat images)
      (inr [[2; 64; 256; 256]; [2; 64; 128; 128]; [2; 128; 64; 64];
            [2; 256; 32; 32]; [2; 512; 16; 16]]);
   Ev (decoder_forward [32; 64; 128; 256]
         [[2; 64; 256; 256]; [2; 64; 128; 128]; [2; 128; 64; 64];
          [2; 256; 32; 32]; [2; 512; 16; 16]])
      (inr [[2; 32; 256; 256]; [2; 64; 128; 128]; [2; 128; 64; 64];
            [2; 256; 32; 32]]);
   Ev (layer_forward (DropoutLayer 0.0%Q) [2; 32; 256; 256])
      (inr [2; 32; 256; 256]);
   Ev (layer_forward (ConvLayer 32 1) [2; 32; 256; 256])
      (inr [2; 1; 256; 256]);
   Ev (interpolate [2; 1; 256; 256] [512; 512] "bilinear" false)
      (inr [2; 1; 512; 512])].

(** [resnet18_unet32] as the module defines it, and its run in the empty
    world for four input channels. *)
Definition resnet18_def : funcdef :=
  {| fn_name := "resnet18_unet32"; fn_decorators := [Model];
     fn_body := resnet18_unet32 |}.

Definition b0_def : funcdef :=
  {| fn_name := "b0_unet32"; fn_decorators := [Model];
     fn_body := b0_unet32 |}.

Definition hrnet18_def : funcdef :=
  {| fn_name := "hrnet18_unet32"; fn_decorators := [Model];
     fn_body := hrnet18_unet32 |}.

Definition resnet18_world_4ch : world :=
  {| store := [ {| es_class := Resnet18Encoder;
                   es_input_channels := 4;
                   es_channels := class_channels Resnet18Encoder;
                   es_strides := class_strides Resnet18Encoder |} ];
     registry := []; missing := [] |}.

Definition resnet18_kwargs : encoder_kwargs :=
  {| kw_pretrained := Some true;
     kw_layers := Some [0; 1; 2; 3; 4];
     kw_activation := None |}.

Definition resnet18_factory_trace : list event :=
  Ev (encoder_new Resnet18Encoder resnet18_kwargs) (inr 0%nat)
  :: Ev (change_input_channels 0%nat 4) (inr ())
  :: resnet18_init_trace.



(** A forward pass on images of four channels, which the encoder rejects. *)
Definition images_4ch : list Z := [2; 4; 512; 512].

Definition channels_error : string :=
  "encoder: wrong number of input channels".


Definition one_map_world : world :=
  {| store := [ {| es_class := Resnet18Encoder;
                   es_input_channels := 3;
                   es_channels := [512];
                   es_strides := [32] |} ];
     registry := []; missing := [] |}.

Definition empty_channels_trace : list event :=
  [Ev (channels 0%nat) (inr [512]);
   Ev (decoder_new [512] (ListChannels [])
         (UnetBlock (ABN "relu")) UpsamplingNearest2d)
      (inr []);
   Ev (Dropout2d 0.25%Q) (inr (DropoutLayer 0.25%Q))].

(** The ResNet-18 model built with [full_size_mask=False], and its pass on
    the two images: four calls, a mask at half the resolution. *)
Definition resnet18_model_lowres : UnetSegmentationModel :=
  {| encoder := 0%nat;
     decoder := [32; 64; 128; 256];
     mask := [("drop"%string, DropoutLayer 0.0%Q);
              ("conv"%string, ConvLayer 32 1)];
     full_size_mask := false |}.

(** The stages of that pass. *)
Definition resnet18_feats : list (list Z) :=
  [[2; 64; 256; 256]; [2; 64; 128; 128]; [2; 128; 64; 64];
   [2; 256; 32; 32]; [2; 512; 16; 16]].

Definition resnet18_decoded : list (list Z) :=
  [[2; 64; 128; 128]; [2; 128; 64; 64]; [2; 256; 32; 32]].

Definition resnet18_head_trace : list event :=
  [Ev (layer_forward (DropoutLayer 0.0%Q) [2; 32; 256; 256])
      (inr [2; 32; 256; 256]);
   Ev (layer_forward (ConvLayer 32 1) [2; 32; 256; 256])
      (inr [2; 1; 256; 256])].

Definition resnet18_lowres_trace : list event :=
  [Ev (encoder_forward 0%nat images)
      (inr [[2; 64; 256; 256]; [2; 64; 128; 128]; [2; 128; 64; 64];
            [2; 256; 32; 32]; [2; 512; 16; 16]]);
   Ev (decoder_forward [32; 64; 128; 256]
         [[2; 64; 256; 256]; [2; 64; 128; 128]; [2; 128; 64; 64];
          [2; 256; 32; 32]; [2; 512; 16; 16]])
      (inr [[2; 32; 256; 256]; [2; 64; 128; 128]; [2; 128; 64; 64];
            [2; 256; 32; 32]]);
   Ev (layer_forward (DropoutLayer 0.0%Q) [2; 32; 256; 256])
      (inr [2; 32; 256; 256]);
   Ev (layer_forward (ConvLayer 32 1) [2; 32; 256; 256])
      (inr [2; 1; 256; 256])].

(** The import of the module in the empty world. *)
Definition factory_names : list string :=
  ["resnet18_unet32"; "resnet34_unet32"; "resnet50_unet32";
   "resnet101_unet64"; "resnet152_unet32"; "densenet121_unet32";
   "densenet161_unet32"; "densenet169_unet32"; "densenet201_unet32";
   "hrnet18_unet32"; "hrnet34_unet32"; "hrnet48_unet32";
   "b0_unet32"; "b5_unet32"; "b5_unet32_relu"].

Definition registered_world : world :=
  {| store := []; registry := factory_names; missing := [] |}.

Definition import_trace : list event :=
  (λ name, Ev (registry_Model name) (inr ())) <$> factory_names.

(** [resnet18_unet32()] in the empty world. *)
Definition resnet18_default_trace : list event :=
  Ev (encoder_new Resnet18Encoder resnet18_kwargs) (inr 0%nat)
  :: resnet18_init_trace.




(** [resnet18_unet32(input_channels=-1)]: the encoder rejects the count. *)
Definition input_channels_error : string :=
  "change_input_channels: negative channel count".

(** An import into a registry that already holds ["resnet50_unet32"]. *)
Definition taken_world : world :=
  {| store := []; registry := ["resnet50_unet32"]; missing := [] |}.

Definition taken_world_after : world :=
  {| store := [];
     registry := ["resnet50_unet32"; "resnet18_unet32"; "resnet34_unet32"];
     missing := [] |}.

Definition taken_error : string := "factory already registered".

Definition taken_trace : list event :=
  [Ev (registry_Model "resnet18_unet32") (inr ());
   Ev (registry_Model "resnet34_unet32") (inr ());
   Ev (registry_Model "resnet50_unet32") (inl taken_error)].

(** The module executed in that world: the eleven imports, then the three
    registry calls. *)
Definition import_events : list event :=
  (λ i, Ev (import_from i.1 i.2) (inr ())) <$> import_statements.

Definition taken_body_trace : list event := import_events ++ taken_trace.

(** The module executed where [catalyst.registry] cannot be imported: the
    eleventh import raises and nothing is registered. *)
Definition no_catalyst_world : world :=
  {| store := []; registry := []; missing := ["catalyst.registry"] |}.

Definition no_catalyst_error : string := "No module named catalyst.registry".

Definition no_catalyst_trace : list event :=
  take 10 import_events
  ++ [Ev (import_from "catalyst.registry" ["Model"]) (inl no_catalyst_error)].

End ShapeLib.

(** * Properties *)

(** Case analysis on the next library call of the run in the goal. *)
Ltac lib_step lib :=
  match goal with
  | |- context [lib ?R ?c ?w] =>
      let e := fresh "e" in
      let r := fresh "r" in
      let w' := fresh "w" in
      let E := fresh "Hcall" in
      destruct (lib R c w) as [[e | r] w'] eqn:E
  end.

Section Properties.
Context `{Imports} {World : Type} (lib : library World).

(** ** Running programs *)

Lemma run_bind {A B : Type} (f : A → prog B) (m : prog A) (w : World) :
  run lib (m ≫= f) w =
  match run lib m w with
  | (inl e, w', tr) => (inl e, w', tr)
  | (inr a, w', tr) =>
      let '(res, w'', tr') := run lib (f a) w' in (res, w'', tr ++ tr')
  end.
Proof.
  unfold mbind, prog_mbind.
  revert w. induction m as [a | e | R c k IH]; intros w; simpl.
  - by destruct (run lib (f a) w) as [[? ?] ?].
  - done.
  - destruct (lib R c w) as [[e | r] w1]; [done |].
    rewrite IH. destruct (run lib (k r) w1) as [[[e | a] w2] tr]; [done |].
    by destruct (run lib (f a) w2) as [[? ?] ?].
Qed.



(** ** The two methods, call by call *)

(** A construction that succeeds made its four library calls, each with
    success, and subscripted a non-empty list. *)
Lemma init_success enc ch nc p fsm act (w : World) self w' tr :
  run lib (__init__ enc ch nc p fsm act) w = (inr self, w', tr) →
  ∃ fm dec ld lc c0 rest w1 w2 w3,
    ch = ListChannels (c0 :: rest)
    ∧ lib _ (channels enc) w = (inr fm, w1)
    ∧ lib _ (decoder_new fm ch (UnetBlock (ABN (default ACT_RELU act)))
               UpsamplingNearest2d) w1 = (inr dec, w2)
    ∧ lib _ (Dropout2d (default 0.25%Q p)) w2 = (inr ld, w3)
    ∧ lib _ (conv1x1 c0 (default 1 nc)) w3 = (inr lc, w')
    ∧ self = {| encoder := enc; decoder := dec;
                mask := [("drop"%string, ld); ("conv"%string, lc)];
                full_size_mask := default true fsm |}
    ∧ tr = [Ev (channels enc) (inr fm);
            Ev (decoder_new fm ch (UnetBlock (ABN (default ACT_RELU act)))
                  UpsamplingNearest2d) (inr dec);
            Ev (Dropout2d (default 0.25%Q p)) (inr ld);
            Ev (conv1x1 c0 (default 1 nc)) (inr lc)].
Proof.
  unfold __init__. cbn.
  lib_step lib; [done |]. lib_step lib; [done |]. lib_step lib; [done |].
  destruct ch as [n | [| c0 rest]]; cbn; [done | done |].
  lib_step lib; [done |].
  intros [= <- <- <-]. by eexists _, _, _, _, _, _, _, _, _.
Qed.

(** The head of a constructed model, run on a tensor. *)
Lemma head_success ld lc x (w : World) y w' tr :
  run lib (sequential_forward [("drop"%string, ld); ("conv"%string, lc)] x) w
  = (inr y, w', tr) →
  ∃ t w1,
    lib _ (layer_forward ld x) w = (inr t, w1)
    ∧ lib _ (layer_forward lc t) w1 = (inr y, w')
    ∧ tr = [Ev (layer_forward ld x) (inr t); Ev (layer_forward lc t) (inr y)].
Proof.
  cbn. lib_step lib; [done |]. lib_step lib; [done |].
  intros [= <- <- <-]. by eexists _, _.
Qed.

(** A forward pass that succeeds, stage by stage. *)
Lemma forward_success self x (w : World) out w' tr :
  run lib (forward self x) w = (inr out, w', tr) →
  ∃ feats d0 rest head w1 w2 w3 trh,
    lib _ (encoder_forward (encoder self) x) w = (inr feats, w1)
    ∧ lib _ (decoder_forward (decoder self) feats) w1 = (inr (d0 :: rest), w2)
    ∧ run lib (sequential_forward (mask self) d0) w2 = (inr head, w3, trh)
    ∧ if full_size_mask self
      then ∃ m,
          lib _ (interpolate head (drop 2 (size x)) "bilinear" false) w3
          = (inr m, w')
          ∧ out = {[ OUTPUT_MASK_KEY := m ]}
          ∧ tr = Ev (encoder_forward (encoder self) x) (inr feats)
                 :: Ev (decoder_forward (decoder self) feats) (inr (d0 :: rest))
                 :: trh
                 ++ [Ev (interpolate head (drop 2 (size x)) "bilinear" false)
                       (inr m)]
      else w' = w3
           ∧ out = {[ OUTPUT_MASK_KEY := head ]}
           ∧ tr = Ev (encoder_forward (encoder self) x) (inr feats)
                  :: Ev (decoder_forward (decoder self) feats) (inr (d0 :: rest))
                  :: trh.
Proof.
  unfold forward. cbn.
  lib_step lib; [done |]. lib_step lib; [done |].
  destruct r0 as [| d0 rest]; cbn; [done |].
  rewrite run_bind.
  destruct (run lib (sequential_forward (mask self) d0) w1)
    as [[[e | head] w3] trh] eqn:Hhead; [done |].
  destruct (full_size_mask self); cbn.
  - lib_step lib; [done |]. intros [= <- <- <-].
    eexists _, _, _, _, _, _, _, _. repeat split; try done. by eexists.
  - intros [= <- <- <-].
    eexists _, _, _, _, _, _, _, _. repeat split; try done.
    by rewrite app_nil_r.
Qed.

(** Conversely, a construction returns as soon as its four library calls
    do and [unet_channels] is a non-empty list. *)
Lemma init_returns enc c0 rest nc p fsm act (w : World) fm dec ld lc w1 w2 w3 w4 :
  lib _ (channels enc) w = (inr fm, w1) →
  lib _ (decoder_new fm (ListChannels (c0 :: rest))
           (UnetBlock (ABN (default ACT_RELU act))) UpsamplingNearest2d) w1
  = (inr dec, w2) →
  lib _ (Dropout2d (default 0.25%Q p)) w2 = (inr ld, w3) →
  lib _ (conv1x1 c0 (default 1 nc)) w3 = (inr lc, w4) →
  (run lib (__init__ enc (ListChannels (c0 :: rest)) nc p fsm act) w).1
  = (inr {| encoder := enc; decoder := dec;
            mask := [("drop"%string, ld); ("conv"%string, lc)];
            full_size_mask := default true fsm |}, w4).
Proof.
  intros H1 H2 H3 H4. unfold __init__. cbn.
  rewrite H1, H2, H3. cbn. by rewrite H4.
Qed.

(** And a forward pass returns as soon as the encoder, the decoder, the head
    and, when it is called, the interpolation do, and the decoder's list is
    not empty. *)
Lemma forward_returns self x (w : World) feats d0 rest head w1 w2 w3 trh :
  lib _ (encoder_forward (encoder self) x) w = (inr feats, w1) →
  lib _ (decoder_forward (decoder self) feats) w1 = (inr (d0 :: rest), w2) →
  run lib (sequential_forward (mask self) d0) w2 = (inr head, w3, trh) →
  if full_size_mask self
  then ∀ m w4,
      lib _ (interpolate head (drop 2 (size x)) "bilinear" false) w3
      = (inr m, w4) →
      (run lib (forward self x) w).1 = (inr {[ OUTPUT_MASK_KEY := m ]}, w4)
  else (run lib (forward self x) w).1 = (inr {[ OUTPUT_MASK_KEY := head ]}, w3).
Proof.
  intros Henc Hdec Hhead. unfold forward. cbn.
  rewrite Henc, Hdec. cbn. rewrite run_bind, Hhead.
  destruct (full_size_mask self); cbn.
  - intros m w4 Hcall. by rewrite Hcall.
  - done.
Qed.

(** Every run of a forward pass, stage by stage: the encoder on the input;
    the decoder on the encoder's maps; the subscript; the head on the first
    map of the decoder; the interpolation when [full_size_mask] is set.  A
    stage that fails ends the pass. *)
Lemma forward_run self x (w : World) :
  run lib (forward self x) w =
  match lib _ (encoder_forward (encoder self) x) w with
  | (inl e, w1) =>
      (inl (LibraryError e), w1,
       [Ev (encoder_forward (encoder self) x) (inl e)])
  | (inr feats, w1) =>
      match lib _ (decoder_forward (decoder self) feats) w1 with
      | (inl e, w2) =>
          (inl (LibraryError e), w2,
           [Ev (encoder_forward (encoder self) x) (inr feats);
            Ev (decoder_forward (decoder self) feats) (inl e)])
      | (inr [], w2) =>
          (inl IndexError, w2,
           [Ev (encoder_forward (encoder self) x) (inr feats);
            Ev (decoder_forward (decoder self) feats) (inr [])])
      | (inr (d0 :: rest), w2) =>
          match run lib (sequential_forward (mask self) d0) w2 with
          | (inl e, w3, trh) =>
              (inl e, w3,
               Ev (encoder_forward (encoder self) x) (inr feats)
               :: Ev (decoder_forward (decoder self) feats) (inr (d0 :: rest))
               :: trh)
          | (inr head, w3, trh) =>
              if full_size_mask self
              then
                match lib _ (interpolate head (drop 2 (size x)) "bilinear"
                               false) w3 with
                | (inl e, w4) =>
                    (inl (LibraryError e), w4,
                     Ev (encoder_forward (encoder self) x) (inr feats)
                     :: Ev (decoder_forward (decoder self) feats)
                          (inr (d0 :: rest))
                     :: trh
                     ++ [Ev (interpolate head (drop 2 (size x)) "bilinear"
                               false) (inl e)])
                | (inr m, w4) =>
                    (inr {[ OUTPUT_MASK_KEY := m ]}, w4,
                     Ev (encoder_forward (encoder self) x) (inr feats)
                     :: Ev (decoder_forward (decoder self) feats)
                          (inr (d0 :: rest))
                     :: trh
                     ++ [Ev (interpolate head (drop 2 (size x)) "bilinear"
                               false) (inr m)])
                end
              else
                (inr {[ OUTPUT_MASK_KEY := head ]}, w3,
                 Ev (encoder_forward (encoder self) x) (inr feats)
                 :: Ev (decoder_forward (decoder self) feats) (inr (d0 :: rest))
                 :: trh)
          end
      end
  end.
Proof.
  unfold forward. cbn.
  lib_step lib; [done |]. lib_step lib; [done |].
  destruct r0 as [| d0 rest]; cbn; [done |].
  rewrite run_bind.
  destruct (run lib (sequential_forward (mask self) d0) w1)
    as [[[e | head] w3] trh]; [done |].
  destruct (full_size_mask self); cbn.
  - lib_step lib; done.
  - by rewrite app_nil_r.
Qed.

(** The head only calls layers. *)
Lemma sequential_forward_no_interpolate layers x (w : World) res w' tr :
  run lib (sequential_forward layers x) w = (res, w', tr) →
  interpolate_calls tr = [].
Proof.
  revert x w res w' tr.
  induction layers as [| [name l] layers IH]; intros x w res w' tr; cbn.
  - by intros [= <- <- <-].
  - lib_step lib; [by intros [= <- <- <-] |].
    change (prog_bind (λ y, sequential_forward layers y) (Ret r))
      with (sequential_forward layers r).
    destruct (run lib (sequential_forward layers r) w0) as [[res1 w2] tr1] eqn:Hrest.
    intros [= <- <- <-]. cbn. eauto.
Qed.

(** Layers that keep the spatial size keep it in sequence. *)
Lemma sequential_forward_spatial_size layers x (w : World) y w' tr :
  (∀ l, l ∈ layers.*2 → keeps_spatial_size lib l) →
  run lib (sequential_forward layers x) w = (inr y, w', tr) →
  drop 2 (size y) = drop 2 (size x).
Proof.
  revert x w y w' tr.
  induction layers as [| [name l] layers IH]; intros x w y w' tr Hkeep; cbn.
  - by intros [= <- <- <-].
  - lib_step lib; [done |].
    change (prog_bind (λ y, sequential_forward layers y) (Ret r))
      with (sequential_forward layers r).
    destruct (run lib (sequential_forward layers r) w0)
      as [[[e | y1] w2] tr1] eqn:Hrest; [done |].
    intros [= <- <- <-].
    rewrite (IH r w0 y1 w2 tr1); [| | done].
    + eapply Hkeep; [| done]. cbn. left.
    + intros l' Hl'. apply Hkeep. cbn. by right.
Qed.

(** ** UnetSegmentationModel.forward *)

(** C1: for a model built by [__init__], whose head is the dropout layer
    and the 1x1 convolution the constructor built, every forward pass, on
    every input [x] and against every library, goes in this order: it calls
    the encoder on [x]; then the decoder on the encoder's output; then the
    dropout layer of the head on the first element of the decoder's output
    (raising [IndexError] if there is none); then the 1x1 convolution of
    the head on the dropout's output; then, only when [full_size_mask] is
    set, the interpolation on the convolution's output.  A call that fails
    ends the pass with its exception; when all succeed the mask returned is
    the result of the last call, and no other call is made. *)
Theorem forward_order enc ch nc p fsm act (w0 : World) self w0' tr0
    x (w : World) :
  run lib (__init__ enc ch nc p fsm act) w0 = (inr self, w0', tr0) →
  ∃ c0 ld lc,
    Ev (Dropout2d (default 0.25%Q p)) (inr ld) ∈ tr0
    ∧ Ev (conv1x1 c0 (default 1 nc)) (inr lc) ∈ tr0
    ∧ mask self = [("drop"%string, ld); ("conv"%string, lc)]
    ∧ run lib (forward self x) w =
      match lib _ (encoder_forward enc x) w with
      | (inl e, w1) =>
          (inl (LibraryError e), w1, [Ev (encoder_forward enc x) (inl e)])
      | (inr feats, w1) =>
          match lib _ (decoder_forward (decoder self) feats) w1 with
          | (inl e, w2) =>
              (inl (LibraryError e), w2,
               [Ev (encoder_forward enc x) (inr feats);
                Ev (decoder_forward (decoder self) feats) (inl e)])
          | (inr [], w2) =>
              (inl IndexError, w2,
               [Ev (encoder_forward enc x) (inr feats);
                Ev (decoder_forward (decoder self) feats) (inr [])])
          | (inr (d0 :: rest), w2) =>
              match lib _ (layer_forward ld d0) w2 with
              | (inl e, w3) =>
                  (inl (LibraryError e), w3,
                   [Ev (encoder_forward enc x) (inr feats);
                    Ev (decoder_forward (decoder self) feats)
                      (inr (d0 :: rest));
                    Ev (layer_forward ld d0) (inl e)])
              | (inr t1, w3) =>
                  match lib _ (layer_forward lc t1) w3 with
                  | (inl e, w4) =>
                      (inl (LibraryError e), w4,
                       [Ev (encoder_forward enc x) (inr feats);
                        Ev (decoder_forward (decoder self) feats)
                          (inr (d0 :: rest));
                        Ev (layer_forward ld d0) (inr t1);
                        Ev (layer_forward lc t1) (inl e)])
                  | (inr t2, w4) =>
                      if default true fsm
                      then
                        match lib _ (interpolate t2 (drop 2 (size x))
                                       "bilinear" false) w4 with
                        | (inl e, w5) =>
                            (inl (LibraryError e), w5,
                             [Ev (encoder_forward enc x) (inr feats);
                              Ev (decoder_forward (decoder self) feats)
                                (inr (d0 :: rest));
                              Ev (layer_forward ld d0) (inr t1);
                              Ev (layer_forward lc t1) (inr t2);
                              Ev (interpolate t2 (drop 2 (size x)) "bilinear"
                                    false) (inl e)])
                        | (inr final, w5) =>
                            (inr {[ OUTPUT_MASK_KEY := final ]}, w5,
                             [Ev (encoder_forward enc x) (inr feats);
                              Ev (decoder_forward (decoder self) feats)
                                (inr (d0 :: rest));
                              Ev (layer_forward ld d0) (inr t1);
                              Ev (layer_forward lc t1) (inr t2);
                              Ev (interpolate t2 (drop 2 (size x)) "bilinear"
                                    false) (inr final)])
                        end
                      else
                        (inr {[ OUTPUT_MASK_KEY := t2 ]}, w4,
                         [Ev (encoder_forward enc x) (inr feats);
                          Ev (decoder_forward (decoder self) feats)
                            (inr (d0 :: rest));
                          Ev (layer_forward ld d0) (inr t1);
                          Ev (layer_forward lc t1) (inr t2)])
                  end
              end
          end
      end.
Proof.
  intros Hinit.
  apply init_success in Hinit
    as (fm & dec & ld & lc & c0 & rest0 & w1 & w2 & w3
        & -> & _ & _ & _ & _ & -> & ->).
  exists c0, ld, lc.
  split; [set_solver |]. split; [set_solver |]. split; [done |].
  rewrite forward_run. cbn.
  lib_step lib; [done |]. lib_step lib; [done |].
  destruct r0 as [| d0 rest]; [done |].
  lib_step lib; [done |]. lib_step lib; [done |].
  destruct (default true fsm); [| done].
  lib_step lib; done.
Qed.

(** C2: once the head of a pass has given its output, the rest is
    decided by [full_size_mask].  When it is set, the pass makes one more
    call, [F.interpolate] on the head's output with [size] the size of the
    input from its third dimension on (the last two dimensions of an
    [N; C; H; W] input), [mode="bilinear"] and [align_corners=False], and
    returns the result of that call, which has the spatial size of the
    input.  When it is not set, the pass returns the head's output itself
    and calls no interpolation, so the mask has the resolution of the first
    map of the decoder.  Every pass that returns has come this way. *)
Theorem forward_full_size_mask self x (w : World) :
  interpolate_contract lib →
  (∀ l, l ∈ (mask self).*2 → keeps_spatial_size lib l) →
  (∀ feats d0 rest head w1 w2 w3 trh,
      lib _ (encoder_forward (encoder self) x) w = (inr feats, w1) →
      lib _ (decoder_forward (decoder self) feats) w1 = (inr (d0 :: rest), w2) →
      run lib (sequential_forward (mask self) d0) w2 = (inr head, w3, trh) →
      if full_size_mask self
      then ∀ m w4,
          lib _ (interpolate head (drop 2 (size x)) "bilinear" false) w3
          = (inr m, w4) →
          run lib (forward self x) w
          = (inr {[ OUTPUT_MASK_KEY := m ]}, w4,
             Ev (encoder_forward (encoder self) x) (inr feats)
             :: Ev (decoder_forward (decoder self) feats) (inr (d0 :: rest))
             :: trh
             ++ [Ev (interpolate head (drop 2 (size x)) "bilinear" false)
                   (inr m)])
          ∧ drop 2 (size m) = drop 2 (size x)
      else run lib (forward self x) w
           = (inr {[ OUTPUT_MASK_KEY := head ]}, w3,
              Ev (encoder_forward (encoder self) x) (inr feats)
              :: Ev (decoder_forward (decoder self) feats) (inr (d0 :: rest))
              :: trh)
           ∧ drop 2 (size head) = drop 2 (size d0))
  ∧ (∀ out w' tr,
      run lib (forward self x) w = (inr out, w', tr) →
      ∃ feats d0 rest head w1 w2 w3 trh m,
        lib _ (encoder_forward (encoder self) x) w = (inr feats, w1)
        ∧ lib _ (decoder_forward (decoder self) feats) w1
          = (inr (d0 :: rest), w2)
        ∧ run lib (sequential_forward (mask self) d0) w2 = (inr head, w3, trh)
        ∧ out !! OUTPUT_MASK_KEY = Some m
        ∧ if full_size_mask self
          then lib _ (interpolate head (drop 2 (size x)) "bilinear" false) w3
               = (inr m, w')
               ∧ interpolate_calls tr
                 = [(head, drop 2 (size x), "bilinear"%string, false)]
               ∧ drop 2 (size m) = drop 2 (size x)
               ∧ (∀ n c h wd,
                    size x = [n; c; h; wd] → drop 2 (size m) = [h; wd])
          else m = head
               ∧ interpolate_calls tr = []
               ∧ drop 2 (size m) = drop 2 (size d0)).
Proof.
  intros Hinterp Hkeep. split.
  - intros feats d0 rest head w1 w2 w3 trh Henc Hdec Hhead.
    pose proof (sequential_forward_spatial_size _ _ _ _ _ _ Hkeep Hhead)
      as Hsize.
    rewrite forward_run, Henc, Hdec, Hhead.
    destruct (full_size_mask self).
    + intros m w4 Hcall. rewrite Hcall. split; [done |].
      by apply Hinterp in Hcall as [-> _].
    + done.
  - intros out w' tr Hfwd.
    apply forward_success in Hfwd
      as (feats & d0 & rest & head & w1 & w2 & w3 & trh
          & Henc & Hdec & Hhead & Hlast).
    pose proof (sequential_forward_no_interpolate _ _ _ _ _ _ Hhead) as Hnone.
    pose proof (sequential_forward_spatial_size _ _ _ _ _ _ Hkeep Hhead)
      as Hsize.
    destruct (full_size_mask self).
    + destruct Hlast as (m & Hcall & -> & ->).
      exists feats, d0, rest, head, w1, w2, w3, trh, m.
      split_and!; try done.
      * apply lookup_singleton_eq.
      * unfold interpolate_calls in *. cbn. rewrite flat_map_app, Hnone. done.
      * by apply Hinterp in Hcall as [-> _].
      * intros n c h wd Hx. apply Hinterp in Hcall as [-> _]. by rewrite Hx.
    + destruct Hlast as (-> & -> & ->).
      exists feats, d0, rest, head, w1, w2, w3, trh, head.
      split_and!; try done.
      apply lookup_singleton_eq.
Qed.


(** ** UnetSegmentationModel.__init__ *)

(** C3: the head of a constructed model is two named layers, in this
    order: the layer [nn.Dropout2d] returned for the constructor's dropout
    probability and the layer [conv1x1] returned for [unet_channels[0]]
    input channels and [num_classes] output channels; no other layer is
    built for it.  With torch's contracts for the convolution and for the
    interpolation, every mask the model returns has [num_classes] channels,
    one when [num_classes] is left to its default. *)
Theorem mask_head enc ch nc p fsm act (w0 : World) self w0' tr0 :
  conv1x1_contract lib →
  interpolate_contract lib →
  run lib (__init__ enc ch nc p fsm act) w0 = (inr self, w0', tr0) →
  ∃ c0 rest ld lc fm,
    ch = ListChannels (c0 :: rest)
    ∧ mask self = [("drop"%string, ld); ("conv"%string, lc)]
    ∧ tr0 = [Ev (channels enc) (inr fm);
             Ev (decoder_new fm ch (UnetBlock (ABN (default ACT_RELU act)))
                   UpsamplingNearest2d) (inr (decoder self));
             Ev (Dropout2d (default 0.25%Q p)) (inr ld);
             Ev (conv1x1 c0 (default 1 nc)) (inr lc)]
    ∧ ∀ x (w : World) out w' tr,
        run lib (forward self x) w = (inr out, w', tr) →
        ∃ m, out !! OUTPUT_MASK_KEY = Some m
             ∧ size m !! 1%nat = Some (default 1 nc)
             ∧ (nc = None → size m !! 1%nat = Some 1).
Proof.
  intros Hconv Hinterp Hinit.
  apply init_success in Hinit
    as (fm & dec & ld & lc & c0 & rest0 & w1 & w2 & w3
        & -> & _ & _ & _ & Hnew & -> & ->).
  exists c0, rest0, ld, lc, fm. split_and!; try done.
  intros x w out w' tr Hfwd.
  apply forward_success in Hfwd
    as (feats & d0 & rest & head & v1 & v2 & v3 & trh & _ & _ & Hhead & Hlast).
  cbn in Hhead, Hlast.
  apply head_success in Hhead as (t1 & v & _ & Hlc & _).
  pose proof (Hconv _ _ _ _ _ Hnew _ _ _ _ Hlc) as Hchan.
  destruct (default true fsm).
  - destruct Hlast as (m & Hcall & -> & _). exists m.
    apply Hinterp in Hcall as [_ Htake].
    assert (size m !! 1%nat = Some (default 1 nc)) as Hm.
    { rewrite <- (lookup_take_lt (size m) 2 1) by lia.
      rewrite Htake, lookup_take_lt by lia. done. }
    split_and!; [apply lookup_singleton_eq | done | by intros ->].
  - destruct Hlast as (_ & -> & _). exists head.
    split_and!; [apply lookup_singleton_eq | done | by intros ->].
Qed.

(** How a construction can fail: in a library call, or at the subscript
    [unet_channels[0]] once the decoder and the dropout layer are built. *)
Lemma init_failure enc ch nc p fsm act (w : World) e w' tr :
  run lib (__init__ enc ch nc p fsm act) w = (inl e, w', tr) →
  library_failure (inl e : exn + UnetSegmentationModel) tr
  ∨ (existsb ev_failed tr = false
     ∧ ((e = TypeError ∧ ∃ n, ch = IntChannels n)
        ∨ (e = IndexError ∧ ch = ListChannels []))).
Proof.
  unfold __init__. cbn.
  lib_step lib.
  { intros [= <- <- <-]. left. by eexists _, _, _, []. }
  lib_step lib.
  { intros [= <- <- <-]. left. by eexists _, _, _, [_]. }
  lib_step lib.
  { intros [= <- <- <-]. left. by eexists _, _, _, [_; _]. }
  destruct ch as [n | [| c0 rest]]; cbn.
  - intros [= <- <- <-]. right. split; [done |]. left. eauto.
  - intros [= <- <- <-]. right. split; [done |]. by right.
  - lib_step lib; [| done].
    intros [= <- <- <-]. left. by eexists _, _, _, [_; _; _].
Qed.

(** Construction never touches the input channels of the encoder, and
    hands the decoder the [unet_channels] it was given. *)
Lemma init_trace_calls enc ch nc p fsm act (w : World) res w' tr :
  run lib (__init__ enc ch nc p fsm act) w = (res, w', tr) →
  change_input_channels_calls tr = []
  ∧ (∀ df, df ∈ decoder_features_calls tr → df = ch).
Proof.
  assert (Hone : ∀ df : channels_arg, df ∈ [ch] → df = ch)
    by (intros df; apply list_elem_of_singleton).
  assert (Hnone : ∀ df : channels_arg, df ∈ [] → df = ch)
    by (intros df Hdf; by apply elem_of_nil in Hdf).
  unfold __init__. cbn.
  lib_step lib; [by intros [= <- <- <-] |].
  lib_step lib; [by intros [= <- <- <-] |].
  lib_step lib; [by intros [= <- <- <-] |].
  destruct ch as [n | [| c0 rest]]; cbn;
    [by intros [= <- <- <-] | by intros [= <- <- <-] |].
  lib_step lib; by intros [= <- <- <-].
Qed.




(** ** The factories *)

(** Every factory of the module is the template at its own parameters, and
    carries the one decorator. *)
Lemma module_functions_template f :
  f ∈ module_functions →
  ∃ cls kwf c0 rest act d,
    (∀ ic nc p pre,
        fn_body f ic nc p pre
        = factory_template cls kwf (c0 :: rest) act d ic nc p pre)
    ∧ (fn_name f ∉ efficientnet_factories →
       kwf = kwargs_pretrained_layers ∨ kwf = kwargs_pretrained)
    ∧ fn_decorators f = [Model].
Proof.
  unfold module_functions. intros Hf.
  assert (Heff : ∀ n : string,
             n ∈ efficientnet_factories →
             n ∉ efficientnet_factories →
             kwargs_fixed None = kwargs_pretrained_layers
             ∨ kwargs_fixed None = kwargs_pretrained) by (intros n ? ?; done).
  repeat (apply elem_of_cons in Hf as [-> | Hf]);
    [ exists Resnet18Encoder, kwargs_pretrained_layers, 32, [64; 128; 256], None, 0.0%Q
    | exists Resnet34Encoder, kwargs_pretrained_layers, 32, [64; 128; 256], None, 0.0%Q
    | exists Resnet50Encoder, kwargs_pretrained_layers, 32, [64; 128; 256], None, 0.0%Q
    | exists Resnet101Encoder, kwargs_pretrained_layers, 64, [128; 256; 512], None, 0.5%Q
    | exists Resnet152Encoder, kwargs_pretrained_layers, 32, [64; 128; 256], None, 0.0%Q
    | exists DenseNet121Encoder, kwargs_pretrained_layers, 32, [64; 128; 256], None, 0.0%Q
    | exists DenseNet161Encoder, kwargs_pretrained_layers, 32, [64; 128; 256], None, 0.0%Q
    | exists DenseNet169Encoder, kwargs_pretrained_layers, 32, [64; 128; 256], None, 0.0%Q
    | exists DenseNet201Encoder, kwargs_pretrained_layers, 32, [64; 128; 256], None, 0.0%Q
    | exists HRNetV2Encoder18, kwargs_pretrained, 32, [64; 128; 256], None, 0.0%Q
    | exists HRNetV2Encoder34, kwargs_pretrained, 32, [64; 128; 256], None, 0.0%Q
    | exists HRNetV2Encoder48, kwargs_pretrained, 32, [64; 128; 256], None, 0.0%Q
    | exists EfficientNetB0Encoder, (kwargs_fixed None), 32, [64; 128],
        (Some ACT_SWISH), 0.0%Q
    | exists EfficientNetB5Encoder, (kwargs_fixed None), 32, [64; 128],
        (Some ACT_SWISH), 0.0%Q
    | exists EfficientNetB5Encoder, (kwargs_fixed (Some ACT_RELU)), 32, [64; 128],
        (Some ACT_RELU), 0.0%Q
    | by apply elem_of_nil in Hf ];
    (split_and!; [done | cbn; intros Hn | done]);
    try (by left); try (by right);
    exfalso; apply Hn; unfold efficientnet_factories; set_solver.
Qed.

(** The run of a template instance, stage by stage. *)
Lemma template_run cls kwf chs act d ic nc p pre (w : World) :
  run lib (factory_template cls kwf chs act d ic nc p pre) w =
  match lib _ (encoder_new cls (kwf (default true pre))) w with
  | (inl e, w1) =>
      (inl (LibraryError e), w1,
       [Ev (encoder_new cls (kwf (default true pre))) (inl e)])
  | (inr enc, w1) =>
      if bool_decide (default 3 ic ≠ 3)
      then
        match lib _ (change_input_channels enc (default 3 ic)) w1 with
        | (inl e, w2) =>
            (inl (LibraryError e), w2,
             [Ev (encoder_new cls (kwf (default true pre))) (inr enc);
              Ev (change_input_channels enc (default 3 ic)) (inl e)])
        | (inr u, w2) =>
            let '(res, w3, tr) :=
              run lib (__init__ enc (ListChannels chs) (Some (default 1 nc))
                         (Some (default d p)) None act) w2 in
            (res, w3,
             Ev (encoder_new cls (kwf (default true pre))) (inr enc)
             :: Ev (change_input_channels enc (default 3 ic)) (inr u) :: tr)
        end
      else
        let '(res, w3, tr) :=
          run lib (__init__ enc (ListChannels chs) (Some (default 1 nc))
                     (Some (default d p)) None act) w1 in
        (res, w3, Ev (encoder_new cls (kwf (default true pre))) (inr enc) :: tr)
  end.
Proof.
  unfold factory_template. rewrite run_bind. cbn [run call_].
  destruct (lib _ (encoder_new cls (kwf (default true pre))) w)
    as [[e | enc] w1]; [done |].
  rewrite run_bind.
  destruct (bool_decide (default 3 ic ≠ 3)); cbn [run call_ mret prog_ret].
  - destruct (lib _ (change_input_channels enc (default 3 ic)) w1)
      as [[e | u] w2]; [done |].
    by destruct (run lib (__init__ _ _ _ _ _ _) _) as [[? ?] ?].
  - by destruct (run lib (__init__ _ _ _ _ _ _) _) as [[? ?] ?].
Qed.

Lemma library_failure_cons {A R : Type} (res : exn + A) (c : call R) (r : R) tr :
  library_failure res tr → library_failure res (Ev c (inr r) :: tr).
Proof.
  intros (e & R' & c' & tr0 & -> & -> & Hok).
  by exists e, R', c', (Ev c (inr r) :: tr0).
Qed.

(** A factory only fails in a library call. *)
Lemma template_failure cls kwf c0 rest act d ic nc p pre (w : World) res w' tr :
  run lib (factory_template cls kwf (c0 :: rest) act d ic nc p pre) w
  = (res, w', tr) →
  failed res = true →
  library_failure res tr.
Proof.
  rewrite template_run.
  assert (Hinit : ∀ enc (v : World) res1 v' tr1,
    run lib (__init__ enc (ListChannels (c0 :: rest)) (Some (default 1 nc))
               (Some (default d p)) None act) v = (res1, v', tr1) →
    failed res1 = true → library_failure res1 tr1).
  { intros enc v [e | self] v' tr1 Hrun Hfail; [| done].
    apply init_failure in Hrun as [Hlib | (_ & [[_ [n Hn]] | [_ Hn]])]; done. }
  lib_step lib.
  { intros [= <- <- <-] _. by eexists _, _, _, []. }
  destruct (bool_decide (default 3 ic ≠ 3)).
  - lib_step lib.
    { intros [= <- <- <-] _. by eexists _, _, _, [_]. }
    destruct (run lib (__init__ _ _ _ _ _ _) _) as [[res1 v'] tr1] eqn:Hrun.
    intros [= <- <- <-] Hfail.
    do 2 apply library_failure_cons. eauto.
  - destruct (run lib (__init__ _ _ _ _ _ _) _) as [[res1 v'] tr1] eqn:Hrun.
    intros [= <- <- <-] Hfail.
    apply library_failure_cons. eauto.
Qed.

(** C4, as the code has it: every factory of the module is an instance
    of one template (construct the encoder, call [change_input_channels]
    when [input_channels] is not 3, call [UnetSegmentationModel] with
    [num_classes] and [dropout] passed on) that differs from the others
    only in the encoder class and the keywords of its constructor call, in
    the list of decoder widths, in the activation and in the default of
    [dropout]; the twelve ResNet, DenseNet and HRNet factories forward their
    [pretrained] parameter to the encoder constructor. *)
Theorem factories_share_template f :
  f ∈ module_functions →
  ∃ cls kwf chs act d,
    (∀ ic nc p pre,
        fn_body f ic nc p pre = factory_template cls kwf chs act d ic nc p pre)
    ∧ (fn_name f ∉ efficientnet_factories → forwards_pretrained f).
Proof.
  intros Hf.
  destruct (module_functions_template f Hf)
    as (cls & kwf & c0 & rest & act & d & Heq & Hkw & _).
  exists cls, kwf, (c0 :: rest), act, d. split; [done |].
  intros Hn ic nc p pre. rewrite Heq.
  exists cls, (kwf (default true pre)). split; [done |].
  by destruct (Hkw Hn) as [-> | ->].
Qed.

(** C5: once a factory has constructed its encoder, it calls
    [change_input_channels] exactly when [input_channels] is not 3: then
    once, on that encoder, with [input_channels], as the very next call;
    when [input_channels] is 3 the call after the construction is the first
    one of [UnetSegmentationModel.__init__], which receives the encoder in
    the state the constructor left it.  The model returned holds that
    encoder. *)
Theorem factory_change_input_channels f ic nc p pre (w : World) res w' tr :
  f ∈ module_functions →
  run lib (fn_body f ic nc p pre) w = (res, w', tr) →
  ∃ cls kw,
    encoder_constructor_call (fn_body f ic nc p pre) = Some (cls, kw)
    ∧ ∀ enc w1,
        lib _ (encoder_new cls kw) w = (inr enc, w1) →
        change_input_channels_calls tr
        = (if bool_decide (default 3 ic ≠ 3) then [(enc, default 3 ic)] else [])
        ∧ (default 3 ic ≠ 3 →
           ∃ r tr2,
             tr = Ev (encoder_new cls kw) (inr enc)
                  :: Ev (change_input_channels enc (default 3 ic)) r :: tr2)
        ∧ (default 3 ic = 3 →
           ∃ chs nc' p' fsm act tr_init,
             tr = Ev (encoder_new cls kw) (inr enc) :: tr_init
             ∧ run lib (__init__ enc chs nc' p' fsm act) w1
               = (res, w', tr_init))
        ∧ (∀ self, res = inr self → encoder self = enc).
Proof.
  intros Hf.
  destruct (module_functions_template f Hf)
    as (cls & kwf & c0 & rest & act & d & Heq & _ & _).
  rewrite Heq. intros Hrun.
  exists cls, (kwf (default true pre)). split; [done |].
  intros enc w1 Hnew. revert Hrun. rewrite template_run, Hnew.
  assert (Hself : ∀ (v : World) res1 v' tr1,
    run lib (__init__ enc (ListChannels (c0 :: rest)) (Some (default 1 nc))
               (Some (default d p)) None act) v = (res1, v', tr1) →
    ∀ self, res1 = inr self → encoder self = enc).
  { intros v res1 v' tr1 Hrun self ->.
    by apply init_success in Hrun as (? & ? & ? & ? & ? & ? & ? & ? & ?
                                       & _ & _ & _ & _ & _ & -> & _). }
  case_bool_decide as Hic.
  - lib_step lib.
    { intros [= <- <- <-]. split_and!; [done | eauto | done | done]. }
    destruct (run lib (__init__ _ _ _ _ _ _) _) as [[res1 v'] tr1] eqn:Hrun.
    intros [= <- <- <-].
    apply init_trace_calls in Hrun as Hcalls. destruct Hcalls as [Hcic _].
    split_and!; [| eauto | done | eauto].
    unfold change_input_channels_calls in *. cbn. by rewrite Hcic.
  - destruct (run lib (__init__ _ _ _ _ _ _) _) as [[res1 v'] tr1] eqn:Hrun.
    intros [= <- <- <-].
    apply init_trace_calls in Hrun as Hcalls. destruct Hcalls as [Hcic _].
    split_and!; [done | done | | eauto].
    intros _. by eexists _, _, _, _, _, _.
Qed.

(** C6: the module defines fifteen factories under fifteen different
    names, each one carries the decorator [Model] and nothing else, and an
    import of the module that completes has handed each of the fifteen to
    the registry, in source order. *)
Theorem factories_registered :
  length module_functions = 15%nat
  ∧ NoDup (fn_name <$> module_functions)
  ∧ Forall (λ f, fn_decorators f = [Model]) module_functions
  ∧ ∀ (w : World) res w' tr,
      run lib import_module w = (res, w', tr) →
      failed res = false →
      registry_calls tr = fn_name <$> module_functions
      ∧ length tr = 15%nat.
Proof.
  split_and!.
  - done.
  - apply (bool_decide_unpack _). by vm_compute.
  - unfold module_functions. repeat constructor.
  - intros w res w' tr. unfold import_module. cbn.
    do 15 (lib_step lib; [by intros [= <- <- <-] |]).
    by intros [= <- <- <-] _.
Qed.


(** C8: a construction that succeeds was given a non-empty list as
    [unet_channels], whose first element it read; given an int it fails,
    whatever the libraries do.  Every factory of the module calls the
    constructor with a non-empty list: none of its runs ends in the
    [TypeError] or the [IndexError] of the subscript, and the decoder only
    ever receives a non-empty list. *)
Theorem init_requires_nonempty_list :
  (∀ enc ch nc p fsm act (w : World) self w' tr,
      run lib (__init__ enc ch nc p fsm act) w = (inr self, w', tr) →
      ∃ c0 rest lc,
        ch = ListChannels (c0 :: rest)
        ∧ last tr = Some (Ev (conv1x1 c0 (default 1 nc)) (inr lc)))
  ∧ (∀ enc n nc p fsm act (w : World),
      failed (run lib (__init__ enc (IntChannels n) nc p fsm act) w).1.1 = true)
  ∧ (∀ f, f ∈ module_functions →
      (∃ cls kwf c0 rest act d, ∀ ic nc p pre,
          fn_body f ic nc p pre
          = factory_template cls kwf (c0 :: rest) act d ic nc p pre)
      ∧ ∀ ic nc p pre (w : World) res w' tr,
          run lib (fn_body f ic nc p pre) w = (res, w', tr) →
          res ≠ inl TypeError
          ∧ res ≠ inl IndexError
          ∧ ∀ df, df ∈ decoder_features_calls tr →
                  ∃ c0 rest, df = ListChannels (c0 :: rest)).
Proof.
  split_and!.
  - intros enc ch nc p fsm act w self w' tr Hrun.
    apply init_success in Hrun
      as (fm & dec & ld & lc & c0 & rest & ? & ? & ? & -> & _ & _ & _ & _ & _ & ->).
    by exists c0, rest, lc.
  - intros enc n nc p fsm act w.
    destruct (run lib (__init__ enc (IntChannels n) nc p fsm act) w)
      as [[[e | self] w'] tr] eqn:Hrun; [done |].
    by apply init_success in Hrun as (? & ? & ? & ? & ? & ? & ? & ? & ? & ? & _).
  - intros f Hf.
    destruct (module_functions_template f Hf)
      as (cls & kwf & c0 & rest & act & d & Heq & _ & _).
    split; [by exists cls, kwf, c0, rest, act, d |].
    intros ic nc p pre w res w' tr. rewrite Heq. intros Hrun.
    split_and!.
    + intros ->. by apply template_failure in Hrun as (? & ? & ? & ? & ? & _).
    + intros ->. by apply template_failure in Hrun as (? & ? & ? & ? & ? & _).
    + revert Hrun. rewrite template_run.
      lib_step lib; [intros [= <- <- <-] df Hdf; by apply elem_of_nil in Hdf |].
      case_bool_decide.
      * lib_step lib; [intros [= <- <- <-] df Hdf; by apply elem_of_nil in Hdf |].
        destruct (run lib (__init__ _ _ _ _ _ _) _) as [[res1 v'] tr1] eqn:Hrun.
        intros [= <- <- <-] df Hdf. cbn in Hdf.
        apply init_trace_calls in Hrun as [_ Hdec]. apply Hdec in Hdf. eauto.
      * destruct (run lib (__init__ _ _ _ _ _ _) _) as [[res1 v'] tr1] eqn:Hrun.
        intros [= <- <- <-] df Hdf. cbn in Hdf.
        apply init_trace_calls in Hrun as [_ Hdec]. apply Hdec in Hdf. eauto.
Qed.

(** C10: the functions of the module that [__all__] does not name are
    exactly the three HRNet factories; each of them is defined in the module
    and carries the decorator [Model], as do the twelve factories that
    [__all__] names. *)
Theorem hrnet_factories_not_exported :
  filter (λ n, (n ∉ __all__)) (fn_name <$> module_functions) = hrnet_factories
  ∧ Forall (λ n, (n ∉ __all__)
                 ∧ ∃ f, f ∈ module_functions
                        ∧ fn_name f = n ∧ fn_decorators f = [Model])
      hrnet_factories
  ∧ length (filter (λ n, (n ∈ __all__)) (fn_name <$> module_functions)) = 12%nat
  ∧ Forall (λ f, fn_decorators f = [Model]) module_functions.
Proof.
  split_and!.
  - by vm_compute.
  - unfold hrnet_factories, module_functions.
    repeat apply Forall_cons_2; [| | | apply Forall_nil_2];
      (split; [apply (bool_decide_unpack _); by vm_compute |]).
    + exists {| fn_name := "hrnet18_unet32"; fn_decorators := [Model];
                fn_body := hrnet18_unet32 |}.
      split; [| done]. do 9 apply list_elem_of_further. apply list_elem_of_here.
    + exists {| fn_name := "hrnet34_unet32"; fn_decorators := [Model];
                fn_body := hrnet34_unet32 |}.
      split; [| done]. do 10 apply list_elem_of_further. apply list_elem_of_here.
    + exists {| fn_name := "hrnet48_unet32"; fn_decorators := [Model];
                fn_body := hrnet48_unet32 |}.
      split; [| done]. do 11 apply list_elem_of_further. apply list_elem_of_here.
  - by vm_compute.
  - unfold module_functions. repeat constructor.
Qed.

(** ** More on the factories *)

(** A template instance that returns has constructed its encoder, patched
    its input channels when asked to, and constructed the model. *)
Lemma template_success cls kwf chs act d ic nc p pre (w : World) self w' tr :
  run lib (factory_template cls kwf chs act d ic nc p pre) w
  = (inr self, w', tr) →
  ∃ enc w1 tr1,
    run lib (__init__ enc (ListChannels chs) (Some (default 1 nc))
               (Some (default d p)) None act) w1 = (inr self, w', tr1)
    ∧ tr = Ev (encoder_new cls (kwf (default true pre))) (inr enc)
           :: (if bool_decide (default 3 ic ≠ 3)
               then [Ev (change_input_channels enc (default 3 ic)) (inr ())]
               else [])
           ++ tr1.
Proof.
  rewrite template_run.
  lib_step lib; [done |].
  case_bool_decide.
  - lib_step lib; [done |]. destruct r0.
    destruct (run lib (__init__ _ _ _ _ _ _) _) as [[res1 v'] tr1] eqn:Hrun.
    intros [= -> <- <-]. by exists r, w1, tr1.
  - destruct (run lib (__init__ _ _ _ _ _ _) _) as [[res1 v'] tr1] eqn:Hrun.
    intros [= -> <- <-]. by exists r, w0, tr1.
Qed.


(** X1: what a factory builds.  A factory call that returns made exactly
    these library calls, in this order: the encoder constructor; when
    [input_channels] is not 3, [change_input_channels]; [encoder.channels];
    the [UNetDecoder] constructor on those channels and the factory's list
    of widths, with [UpsamplingNearest2d]; [nn.Dropout2d] on the caller's
    [dropout] when one is given; [conv1x1] from the first of the widths to
    the caller's [num_classes], 1 when none is given.  The model returned
    holds that encoder, that decoder and those two layers, and has
    [full_size_mask] set: no factory can build a model that returns masks at
    the decoder's resolution. *)
Theorem factory_builds f ic nc p pre (w : World) self w' tr :
  f ∈ module_functions →
  run lib (fn_body f ic nc p pre) w = (inr self, w', tr) →
  ∃ cls kw enc c0 rest act pd fm dec ld lc,
    tr = Ev (encoder_new cls kw) (inr enc)
         :: (if bool_decide (default 3 ic ≠ 3)
             then [Ev (change_input_channels enc (default 3 ic)) (inr ())]
             else [])
         ++ [Ev (channels enc) (inr fm);
             Ev (decoder_new fm (ListChannels (c0 :: rest))
                   (UnetBlock (ABN act)) UpsamplingNearest2d) (inr dec);
             Ev (Dropout2d pd) (inr ld);
             Ev (conv1x1 c0 (default 1 nc)) (inr lc)]
    ∧ (∀ q, p = Some q → pd = q)
    ∧ self = {| encoder := enc; decoder := dec;
                mask := [("drop"%string, ld); ("conv"%string, lc)];
                full_size_mask := true |}.
Proof.
  intros Hf.
  destruct (module_functions_template f Hf)
    as (cls & kwf & c0 & rest & act & d & Heq & _ & _).
  rewrite Heq. intros Hrun.
  apply template_success in Hrun as (enc & w1 & tr1 & Hinit & ->).
  apply init_success in Hinit
    as (fm & dec & ld & lc & c0' & rest' & v1 & v2 & v3
        & [= <- <-] & _ & _ & _ & _ & -> & ->).
  exists cls, (kwf (default true pre)), enc, c0, rest, (default ACT_RELU act),
    (default d p), fm, dec, ld, lc.
  split_and!; [done | by intros q -> | done].
Qed.

(** X2: a factory's model, run.  With torch's contracts for the
    convolution and the interpolation, every mask returned by a model that a
    factory built has the caller's [num_classes] channels (one when none was
    given) and the spatial size of the input, and the pass made exactly one
    [F.interpolate] call. *)
Theorem factory_model_mask f ic nc p pre (w0 : World) self w0' tr0
    x (w : World) out w' tr :
  conv1x1_contract lib →
  interpolate_contract lib →
  f ∈ module_functions →
  run lib (fn_body f ic nc p pre) w0 = (inr self, w0', tr0) →
  run lib (forward self x) w = (inr out, w', tr) →
  ∃ m head,
    out = {[ OUTPUT_MASK_KEY := m ]}
    ∧ interpolate_calls tr
      = [(head, drop 2 (size x), "bilinear"%string, false)]
    ∧ size m !! 1%nat = Some (default 1 nc)
    ∧ drop 2 (size m) = drop 2 (size x).
Proof.
  intros Hconv Hinterp Hf.
  destruct (module_functions_template f Hf)
    as (cls & kwf & c0 & rest & act & d & Heq & _ & _).
  rewrite Heq. intros Hrun Hfwd.
  apply template_success in Hrun as (enc & w1 & tr1 & Hinit & _).
  apply init_success in Hinit
    as (fm & dec & ld & lc & c0' & rest' & v1 & v2 & v3
        & [= <- <-] & _ & _ & _ & Hnew & -> & _).
  apply forward_success in Hfwd
    as (feats & d0 & rest1 & head & u1 & u2 & u3 & trh & _ & _ & Hhead & Hlast).
  cbn [mask full_size_mask encoder decoder] in Hhead, Hlast.
  pose proof (sequential_forward_no_interpolate _ _ _ _ _ _ Hhead) as Hnone.
  apply head_success in Hhead as (t1 & v & _ & Hlc & _).
  pose proof (Hconv _ _ _ _ _ Hnew _ _ _ _ Hlc) as Hchan.
  destruct Hlast as (m & Hcall & -> & ->).
  exists m, head. apply Hinterp in Hcall as [Hdrop Htake].
  split_and!; [done | | | done].
  - unfold interpolate_calls in *. cbn. by rewrite flat_map_app, Hnone.
  - rewrite <- (lookup_take_lt (size m) 2 1) by lia.
    rewrite Htake, lookup_take_lt by lia. done.
Qed.

(** X3: which factories ignore [pretrained].  The body of a factory is the
    same for every value of [pretrained] exactly when the factory is one of
    [b0_unet32], [b5_unet32], [b5_unet32_relu]: these three build the same
    network whether pretrained weights are asked for or not. *)
Theorem pretrained_ignored_by_efficientnet f :
  f ∈ module_functions →
  (∀ ic nc p pre pre', fn_body f ic nc p pre = fn_body f ic nc p pre')
  ↔ fn_name f ∈ efficientnet_factories.
Proof.
  intros Hf.
  destruct (decide (fn_name f ∈ efficientnet_factories)) as [Hin | Hout].
  - split; [done | intros _].
    revert Hin. unfold module_functions in Hf.
    repeat (apply elem_of_cons in Hf as [-> | Hf]);
      try (by apply elem_of_nil in Hf);
      try (intros _ ic nc p pre pre'; reflexivity);
      cbn; unfold efficientnet_factories; intros Hin;
      by repeat (apply elem_of_cons in Hin as [Hin | Hin];
                 [discriminate Hin |]);
         apply elem_of_nil in Hin.
  - split; [intros Hsame; exfalso | done].
    destruct (module_functions_template f Hf)
      as (cls & kwf & c0 & rest & act & d & Heq & Hkw & _).
    specialize (Hsame None None None (Some true) (Some false)).
    rewrite !Heq in Hsame.
    apply (f_equal encoder_constructor_call) in Hsame. cbn in Hsame.
    by destruct (Hkw Hout) as [-> | ->].
Qed.


(** X5: what an import does.  Whatever the interpreter and the registry
    answer, executing the module only imports and calls the registry
    decorator: no encoder, decoder or layer is constructed.  The imports
    come first, in source order, and stop at the first one that raises; a
    registration is only attempted once the eleven imports have succeeded,
    and the names handed to the registry are an initial segment of the
    factory names in source order, cut at the first registration that
    fails.  The module fails exactly when an import or a registration does,
    that call being the last one made. *)
Theorem module_body_calls (w : World) res w' tr :
  run lib module_body w = (res, w', tr) →
  (length (import_calls tr) + length (registry_calls tr) = length tr)%nat
  ∧ import_calls tr `prefix_of` import_statements.*1
  ∧ registry_calls tr `prefix_of` (fn_name <$> module_functions)
  ∧ (registry_calls tr ≠ [] → import_calls tr = import_statements.*1)
  ∧ (failed_imports tr ≠ [] → failed res = true ∧ registry_calls tr = [])
  ∧ (failed res = true ↔ existsb ev_failed tr = true)
  ∧ (failed res = true → last (ev_failed <$> tr) = Some true).
Proof.
  unfold module_body, import_module. cbn.
  do 26 (lib_step lib;
         [intros [= <- <- <-];
          split_and!; [done | by eexists | by eexists | done | done | done
                      | done] |]).
  intros [= <- <- <-].
  split_and!; [done | by exists [] | by exists [] | done | done | done | done].
Qed.

(** X6: [__all__] names nothing that the module does not define: each of
    its thirteen entries is the class or one of the factories, and none is
    listed twice. *)
Theorem all_names_defined :
  Forall (λ n, n = "UnetSegmentationModel"%string
               ∨ n ∈ fn_name <$> module_functions) __all__
  ∧ NoDup __all__
  ∧ length __all__ = 13%nat.
Proof.
  split_and!.
  - apply (bool_decide_unpack _). by vm_compute.
  - apply (bool_decide_unpack _). by vm_compute.
  - done.
Qed.

(** X7: a construction from an int or from an empty list.  It never
    reaches [conv1x1]; and when none of its library calls fails it has read
    [encoder.channels] and built the decoder and the dropout layer before it
    raises, [TypeError] for an int and [IndexError] for an empty list. *)
Theorem init_subscript_failure enc ch nc p fsm act (w : World) res w' tr :
  (¬ ∃ c0 rest, ch = ListChannels (c0 :: rest)) →
  run lib (__init__ enc ch nc p fsm act) w = (res, w', tr) →
  conv1x1_calls tr = []
  ∧ (existsb ev_failed tr = false →
     ∃ fm dec ld,
       tr = [Ev (channels enc) (inr fm);
             Ev (decoder_new fm ch (UnetBlock (ABN (default ACT_RELU act)))
                   UpsamplingNearest2d) (inr dec);
             Ev (Dropout2d (default 0.25%Q p)) (inr ld)]
       ∧ res = inl (match ch with
                    | IntChannels _ => TypeError
                    | ListChannels _ => IndexError
                    end)).
Proof.
  intros Hch. unfold __init__. cbn.
  lib_step lib; [by intros [= <- <- <-] |].
  lib_step lib; [by intros [= <- <- <-] |].
  lib_step lib; [by intros [= <- <- <-] |].
  destruct ch as [n | [| c0 rest]]; cbn.
  - intros [= <- <- <-]. split; [done |]. intros _. by eexists _, _, _.
  - intros [= <- <- <-]. split; [done |]. intros _. by eexists _, _, _.
  - exfalso. apply Hch. eauto.
Qed.

(** X8: a factory that cannot prepare its encoder.  When the encoder
    constructor raises, or when [change_input_channels] does, the factory
    ends with that exception and [UnetSegmentationModel] is never entered:
    [encoder.channels] is not read and no decoder or layer is built. *)
Theorem factory_encoder_failure f ic nc p pre (w : World) :
  f ∈ module_functions →
  ∃ cls kw,
    encoder_constructor_call (fn_body f ic nc p pre) = Some (cls, kw)
    ∧ (∀ e w1,
         lib _ (encoder_new cls kw) w = (inl e, w1) →
         run lib (fn_body f ic nc p pre) w
         = (inl (LibraryError e), w1, [Ev (encoder_new cls kw) (inl e)]))
    ∧ (∀ enc w1 e w2,
         lib _ (encoder_new cls kw) w = (inr enc, w1) →
         default 3 ic ≠ 3 →
         lib _ (change_input_channels enc (default 3 ic)) w1 = (inl e, w2) →
         run lib (fn_body f ic nc p pre) w
         = (inl (LibraryError e), w2,
            [Ev (encoder_new cls kw) (inr enc);
             Ev (change_input_channels enc (default 3 ic)) (inl e)])).
Proof.
  intros Hf.
  destruct (module_functions_template f Hf)
    as (cls & kwf & c0 & rest & act & d & Heq & _ & _).
  rewrite Heq.
  exists cls, (kwf (default true pre)). split_and!; [done | |].
  - intros e w1 Hnew. by rewrite template_run, Hnew.
  - intros enc w1 e w2 Hnew Hic Hcic.
    rewrite template_run, Hnew. rewrite bool_decide_eq_true_2 by done.
    by rewrite Hcic.
Qed.

End Properties.

(** * The properties on the reference library *)

#[local] Existing Instance ShapeLib.imports.

Lemma shape_lib_interpolate_contract : interpolate_contract ShapeLib.lib.
Proof.
  intros x sz mode ac w y w'. cbn.
  destruct x as [| n [| c [| h [| wd [| ? ?]]]]]; try done.
  destruct sz as [| h' [| wd' [| ? ?]]]; try done.
  case_bool_decide; [| done]. by intros [= <- <-].
Qed.

Lemma shape_lib_keeps_spatial_size l : keeps_spatial_size ShapeLib.lib l.
Proof.
  intros x w y w'. cbn. destruct l as [p | cin cout].
  - by intros [= <- <-].
  - destruct x as [| n [| c [| h [| wd [| ? ?]]]]]; try done.
    case_bool_decide; [| done]. by intros [= <- <-].
Qed.

Lemma shape_lib_conv1x1_contract : conv1x1_contract ShapeLib.lib.
Proof.
  intros cin cout w0 layer w0'. cbn. intros [= <- <-] x w y w'. cbn.
  destruct x as [| n [| c [| h [| wd [| ? ?]]]]]; try done.
  case_bool_decide; [| done]. by intros [= <- <-].
Qed.

(** The ResNet-18 model on a batch of two images: five calls and a mask; on
    images of four channels: the encoder's call alone, and its exception. *)
Lemma forward_order_witness :
  run ShapeLib.lib
    (__init__ 0%nat (ListChannels [32; 64; 128; 256]) None (Some 0.0%Q)
       None None)
    ShapeLib.resnet18_world
  = (inr ShapeLib.resnet18_model, ShapeLib.resnet18_world,
     ShapeLib.resnet18_init_trace)
  ∧ run ShapeLib.lib (forward ShapeLib.resnet18_model ShapeLib.images)
      ShapeLib.resnet18_world
    = (inr {[ "mask"%string := [2; 1; 512; 512] ]}, ShapeLib.resnet18_world,
       ShapeLib.resnet18_forward_trace)
  ∧ run ShapeLib.lib (forward ShapeLib.resnet18_model ShapeLib.images_4ch)
      ShapeLib.resnet18_world
    = (inl (LibraryError ShapeLib.channels_error), ShapeLib.resnet18_world,
       [Ev (encoder_forward 0%nat ShapeLib.images_4ch)
          (inl ShapeLib.channels_error)]).
Proof.
  assert (run ShapeLib.lib
            (__init__ 0%nat (ListChannels [32; 64; 128; 256]) None (Some 0.0%Q)
               None None)
            ShapeLib.resnet18_world
          = (inr ShapeLib.resnet18_model, ShapeLib.resnet18_world,
             ShapeLib.resnet18_init_trace)) as Hinit by reflexivity.
  destruct (forward_order ShapeLib.lib _ _ _ _ _ _ _ _ _ _
              ShapeLib.images ShapeLib.resnet18_world Hinit)
    as (c0 & ld & lc & _ & _ & Hmask & Hrun).
  destruct (forward_order ShapeLib.lib _ _ _ _ _ _ _ _ _ _
              ShapeLib.images_4ch ShapeLib.resnet18_world Hinit)
    as (c0' & ld' & lc' & _ & _ & Hmask' & Hrun').
  cbn in Hmask, Hmask'.
  injection Hmask as <- <-. injection Hmask' as <- <-.
  split_and!; [exact Hinit | exact Hrun | exact Hrun'].
Defined.

(** The same pass returns a mask of the 512 x 512 of the images; with
    [full_size_mask=False] the model returns the head's 256 x 256 output. *)
Lemma forward_full_size_mask_witness :
  interpolate_contract ShapeLib.lib
  ∧ (∀ l, keeps_spatial_size ShapeLib.lib l)
  ∧ run ShapeLib.lib (forward ShapeLib.resnet18_model ShapeLib.images)
      ShapeLib.resnet18_world
    = (inr {[ "mask"%string := [2; 1; 512; 512] ]}, ShapeLib.resnet18_world,
       ShapeLib.resnet18_forward_trace)
  ∧ drop 2 [2; 1; 512; 512] = drop 2 ShapeLib.images
  ∧ run ShapeLib.lib (forward ShapeLib.resnet18_model_lowres ShapeLib.images)
      ShapeLib.resnet18_world
    = (inr {[ "mask"%string := [2; 1; 256; 256] ]}, ShapeLib.resnet18_world,
       ShapeLib.resnet18_lowres_trace)
  ∧ drop 2 [2; 1; 256; 256] = drop 2 [2; 32; 256; 256]
  ∧ interpolate_calls ShapeLib.resnet18_lowres_trace = [].
Proof.
  destruct (forward_full_size_mask ShapeLib.lib ShapeLib.resnet18_model
              ShapeLib.images ShapeLib.resnet18_world
              shape_lib_interpolate_contract
              (λ l _, shape_lib_keeps_spatial_size l)) as [Hfull _].
  destruct (forward_full_size_mask ShapeLib.lib ShapeLib.resnet18_model_lowres
              ShapeLib.images ShapeLib.resnet18_world
              shape_lib_interpolate_contract
              (λ l _, shape_lib_keeps_spatial_size l)) as [Hlow Hinv].
  destruct (Hfull ShapeLib.resnet18_feats ([2; 32; 256; 256] : list Z)
              ShapeLib.resnet18_decoded ([2; 1; 256; 256] : list Z)
              ShapeLib.resnet18_world ShapeLib.resnet18_world
              ShapeLib.resnet18_world ShapeLib.resnet18_head_trace
              eq_refl eq_refl eq_refl
              ([2; 1; 512; 512] : list Z) ShapeLib.resnet18_world eq_refl)
    as [Hrun Hsize].
  destruct (Hlow ShapeLib.resnet18_feats ([2; 32; 256; 256] : list Z)
              ShapeLib.resnet18_decoded ([2; 1; 256; 256] : list Z)
              ShapeLib.resnet18_world ShapeLib.resnet18_world
              ShapeLib.resnet18_world ShapeLib.resnet18_head_trace
              eq_refl eq_refl eq_refl)
    as [Hrun' Hsize'].
  destruct (Hinv _ _ _ Hrun')
    as (? & ? & ? & ? & ? & ? & ? & ? & ? & _ & _ & _ & _ & _ & Hnone & _).
  split; [exact shape_lib_interpolate_contract |].
  split; [exact shape_lib_keeps_spatial_size |].
  split_and!; [exact Hrun | exact Hsize | exact Hrun' | exact Hsize'
              | exact Hnone].
Defined.

(** The head of the ResNet-18 model, [num_classes] left to its default:
    every mask it returns has one channel. *)
Lemma mask_head_witness :
  conv1x1_contract ShapeLib.lib
  ∧ interpolate_contract ShapeLib.lib
  ∧ run ShapeLib.lib
      (__init__ 0%nat (ListChannels [32; 64; 128; 256]) None (Some 0.0%Q)
         None None)
      ShapeLib.resnet18_world
    = (inr ShapeLib.resnet18_model, ShapeLib.resnet18_world,
       ShapeLib.resnet18_init_trace)
  ∧ ∃ (c0 : Z) (rest : list Z) (ld lc : ShapeLib.layer) (fm : list Z),
      ListChannels [32; 64; 128; 256] = ListChannels (c0 :: rest)
      ∧ mask ShapeLib.resnet18_model
        = [("drop"%string, ld); ("conv"%string, lc)]
      ∧ ShapeLib.resnet18_init_trace
        = [Ev (channels 0%nat) (inr fm);
           Ev (decoder_new fm (ListChannels [32; 64; 128; 256])
                 (UnetBlock (ABN "relu")) UpsamplingNearest2d)
              (inr [32; 64; 128; 256]);
           Ev (Dropout2d 0.0%Q) (inr ld);
           Ev (conv1x1 c0 1) (inr lc)]
      ∧ ∀ (x : list Z) (w : ShapeLib.world) (out : gmap string (list Z))
          (w' : ShapeLib.world) (tr : list event),
          run ShapeLib.lib (forward ShapeLib.resnet18_model x) w
          = (inr out, w', tr) →
          ∃ m : list Z,
            out !! "mask"%string = Some m
            ∧ m !! 1%nat = Some 1
            ∧ ((None : option Z) = None → m !! 1%nat = Some 1).
Proof.
  assert (run ShapeLib.lib
            (__init__ 0%nat (ListChannels [32; 64; 128; 256]) None (Some 0.0%Q)
               None None)
            ShapeLib.resnet18_world
          = (inr ShapeLib.resnet18_model, ShapeLib.resnet18_world,
             ShapeLib.resnet18_init_trace)) as Hinit by reflexivity.
  split; [exact shape_lib_conv1x1_contract |].
  split; [exact shape_lib_interpolate_contract |].
  split; [exact Hinit |].
  exact (mask_head ShapeLib.lib _ _ _ _ _ _ _ _ _ _
           shape_lib_conv1x1_contract shape_lib_interpolate_contract Hinit).
Defined.


(** [resnet18_unet32], which is not an EfficientNet factory, forwards
    [pretrained]. *)
Lemma factories_share_template_witness :
  ShapeLib.resnet18_def ∈ module_functions
  ∧ (fn_name ShapeLib.resnet18_def ∉ efficientnet_factories)
  ∧ forwards_pretrained ShapeLib.resnet18_def.
Proof.
  assert (ShapeLib.resnet18_def ∈ module_functions) as Hmem
    by apply list_elem_of_here.
  assert (fn_name ShapeLib.resnet18_def ∉ efficientnet_factories) as Hres
    by (apply (bool_decide_unpack _); vm_compute; reflexivity).
  split; [exact Hmem |]. split; [exact Hres |].
  destruct (factories_share_template ShapeLib.resnet18_def Hmem)
    as (cls & kwf & chs & act & d & _ & Hpre).
  exact (Hpre Hres).
Defined.

(** C4 as the spec states it fails at [b0_unet32]: the constructor call it
    starts with, [E.EfficientNetB0Encoder()], has no [pretrained] keyword.
    Nor are the keywords of the constructor call shared: [resnet18_unet32]
    passes [layers=[0, 1, 2, 3, 4]] and [hrnet18_unet32] passes no
    [layers]. *)
Lemma b0_unet32_drops_pretrained :
  ShapeLib.b0_def ∈ module_functions
  ∧ encoder_constructor_call
      (fn_body ShapeLib.b0_def None None None (Some false))
    = Some (EfficientNetB0Encoder,
            {| kw_pretrained := None; kw_layers := None;
               kw_activation := None |})
  ∧ ¬ forwards_pretrained ShapeLib.b0_def
  ∧ ¬ (∀ f : funcdef, f ∈ module_functions → forwards_pretrained f)
  ∧ ¬ shared_constructor_keywords.
Proof.
  assert (ShapeLib.b0_def ∈ module_functions) as Hmem
    by (do 12 apply list_elem_of_further; apply list_elem_of_here).
  assert (¬ forwards_pretrained ShapeLib.b0_def) as Hb0.
  { intros Hpre.
    destruct (Hpre None None None (Some false)) as (cls & kw & Hcall & Hkw).
    cbn in Hcall. injection Hcall as <- <-. discriminate Hkw. }
  split_and!; [exact Hmem | reflexivity | exact Hb0 | |].
  - intros Hall. exact (Hb0 (Hall _ Hmem)).
  - intros (kw & Hshared).
    assert (ShapeLib.resnet18_def ∈ module_functions) as Hres
      by apply list_elem_of_here.
    assert (ShapeLib.hrnet18_def ∈ module_functions) as Hhr
      by (do 9 apply list_elem_of_further; apply list_elem_of_here).
    destruct (Hshared _ Hres None None None None) as (cls1 & Hcall1).
    destruct (Hshared _ Hhr None None None None) as (cls2 & Hcall2).
    cbn in Hcall1, Hcall2.
    injection Hcall1 as _ Hkw1. injection Hcall2 as _ Hkw2.
    rewrite <- Hkw1 in Hkw2. discriminate Hkw2.
Qed.

(** [resnet18_unet32(input_channels=4)] in the empty world changes the
    input channels of its encoder once, to 4. *)
Lemma factory_change_input_channels_witness :
  ShapeLib.resnet18_def ∈ module_functions
  ∧ run ShapeLib.lib (fn_body ShapeLib.resnet18_def (Some 4) None None None)
      ShapeLib.empty_world
    = (inr ShapeLib.resnet18_model, ShapeLib.resnet18_world_4ch,
       ShapeLib.resnet18_factory_trace)
  ∧ ShapeLib.lib _ (encoder_new Resnet18Encoder ShapeLib.resnet18_kwargs)
      ShapeLib.empty_world
    = (inr 0%nat, ShapeLib.resnet18_world)
  ∧ change_input_channels_calls ShapeLib.resnet18_factory_trace
    = [(0%nat, 4)]
  ∧ encoder ShapeLib.resnet18_model = 0%nat.
Proof.
  assert (ShapeLib.resnet18_def ∈ module_functions) as Hmem
    by apply list_elem_of_here.
  assert (run ShapeLib.lib
            (fn_body ShapeLib.resnet18_def (Some 4) None None None)
            ShapeLib.empty_world
          = (inr ShapeLib.resnet18_model, ShapeLib.resnet18_world_4ch,
             ShapeLib.resnet18_factory_trace)) as Hrun by reflexivity.
  assert (ShapeLib.lib _ (encoder_new Resnet18Encoder ShapeLib.resnet18_kwargs)
            ShapeLib.empty_world
          = (inr 0%nat, ShapeLib.resnet18_world)) as Hnew by reflexivity.
  destruct (factory_change_input_channels ShapeLib.lib _ _ _ _ _ _ _ _ _
              Hmem Hrun) as (cls & kw & Hcall & Hrest).
  cbn in Hcall. injection Hcall as <- <-.
  destruct (Hrest 0%nat ShapeLib.resnet18_world Hnew) as (Hcic & _ & _ & Hself).
  split_and!; [exact Hmem | exact Hrun | exact Hnew | exact Hcic |].
  exact (Hself _ eq_refl).
Defined.

(** An import in the empty world registers the fifteen factories. *)
Lemma factories_registered_witness :
  run ShapeLib.lib import_module ShapeLib.empty_world
  = (inr (), ShapeLib.registered_world, ShapeLib.import_trace)
  ∧ registry_calls ShapeLib.import_trace = fn_name <$> module_functions
  ∧ length ShapeLib.import_trace = 15%nat.
Proof.
  assert (run ShapeLib.lib import_module ShapeLib.empty_world
          = (inr (), ShapeLib.registered_world, ShapeLib.import_trace))
    as Hrun by (vm_compute; reflexivity).
  destruct (factories_registered ShapeLib.lib) as (_ & _ & _ & Himport).
  split; [exact Hrun |].
  exact (Himport _ _ _ _ Hrun eq_refl).
Defined.



(** The construction of the ResNet-18 model read the first of its four
    widths. *)
Lemma init_requires_nonempty_list_witness :
  run ShapeLib.lib
    (__init__ 0%nat (ListChannels [32; 64; 128; 256]) None (Some 0.0%Q)
       None None)
    ShapeLib.resnet18_world
  = (inr ShapeLib.resnet18_model, ShapeLib.resnet18_world,
     ShapeLib.resnet18_init_trace)
  ∧ ∃ (c0 : Z) (rest : list Z) (lc : ShapeLib.layer),
      ListChannels [32; 64; 128; 256] = ListChannels (c0 :: rest)
      ∧ last ShapeLib.resnet18_init_trace
        = Some (Ev (conv1x1 c0 1) (inr lc)).
Proof.
  assert (run ShapeLib.lib
            (__init__ 0%nat (ListChannels [32; 64; 128; 256]) None (Some 0.0%Q)
               None None)
            ShapeLib.resnet18_world
          = (inr ShapeLib.resnet18_model, ShapeLib.resnet18_world,
             ShapeLib.resnet18_init_trace)) as Hinit by reflexivity.
  destruct (init_requires_nonempty_list ShapeLib.lib) as (Hsucc & _ & _).
  split; [exact Hinit |].
  exact (Hsucc _ _ _ _ _ _ _ _ _ _ Hinit).
Defined.

(** [resnet18_unet32(input_channels=4, dropout=0.0)] in the empty world: six
    calls, and a model with [full_size_mask] set. *)
Lemma factory_builds_witness :
  ShapeLib.resnet18_def ∈ module_functions
  ∧ run ShapeLib.lib
      (fn_body ShapeLib.resnet18_def (Some 4) None (Some 0.0%Q) None)
      ShapeLib.empty_world
    = (inr ShapeLib.resnet18_model, ShapeLib.resnet18_world_4ch,
       ShapeLib.resnet18_factory_trace)
  ∧ ∃ (cls : encoder_class) (kw : encoder_kwargs) (enc : nat) (c0 : Z)
      (rest : list Z) (act : string) (pd : Q) (fm dec : list Z)
      (ld lc : ShapeLib.layer),
      ShapeLib.resnet18_factory_trace
      = Ev (encoder_new cls kw) (inr enc)
        :: [Ev (change_input_channels enc 4) (inr ())]
        ++ [Ev (channels enc) (inr fm);
            Ev (decoder_new fm (ListChannels (c0 :: rest)) (UnetBlock (ABN act))
                  UpsamplingNearest2d) (inr dec);
            Ev (Dropout2d pd) (inr ld);
            Ev (conv1x1 c0 1) (inr lc)]
      ∧ (∀ q : Q, Some 0.0%Q = Some q → pd = q)
      ∧ ShapeLib.resnet18_model
        = {| encoder := enc; decoder := dec;
             mask := [("drop"%string, ld); ("conv"%string, lc)];
             full_size_mask := true |}.
Proof.
  assert (ShapeLib.resnet18_def ∈ module_functions) as Hmem
    by apply list_elem_of_here.
  assert (run ShapeLib.lib
            (fn_body ShapeLib.resnet18_def (Some 4) None (Some 0.0%Q) None)
            ShapeLib.empty_world
          = (inr ShapeLib.resnet18_model, ShapeLib.resnet18_world_4ch,
             ShapeLib.resnet18_factory_trace)) as Hrun by reflexivity.
  split; [exact Hmem |]. split; [exact Hrun |].
  exact (factory_builds ShapeLib.lib _ _ _ _ _ _ _ _ _ Hmem Hrun).
Defined.

(** [resnet18_unet32()] and a pass on two images: one channel, 512 x 512. *)
Lemma factory_model_mask_witness :
  conv1x1_contract ShapeLib.lib
  ∧ interpolate_contract ShapeLib.lib
  ∧ ShapeLib.resnet18_def ∈ module_functions
  ∧ run ShapeLib.lib (fn_body ShapeLib.resnet18_def None None None None)
      ShapeLib.empty_world
    = (inr ShapeLib.resnet18_model, ShapeLib.resnet18_world,
       ShapeLib.resnet18_default_trace)
  ∧ run ShapeLib.lib (forward ShapeLib.resnet18_model ShapeLib.images)
      ShapeLib.resnet18_world
    = (inr {[ "mask"%string := [2; 1; 512; 512] ]}, ShapeLib.resnet18_world,
       ShapeLib.resnet18_forward_trace)
  ∧ ∃ m head : list Z,
      ({[ "mask"%string := [2; 1; 512; 512] ]} : gmap string (list Z))
      = {[ "mask"%string := m ]}
      ∧ interpolate_calls ShapeLib.resnet18_forward_trace
        = [(head, [512; 512], "bilinear"%string, false)]
      ∧ m !! 1%nat = Some 1
      ∧ drop 2 m = [512; 512].
Proof.
  assert (ShapeLib.resnet18_def ∈ module_functions) as Hmem
    by apply list_elem_of_here.
  assert (run ShapeLib.lib (fn_body ShapeLib.resnet18_def None None None None)
            ShapeLib.empty_world
          = (inr ShapeLib.resnet18_model, ShapeLib.resnet18_world,
             ShapeLib.resnet18_default_trace)) as Hrun by reflexivity.
  assert (run ShapeLib.lib (forward ShapeLib.resnet18_model ShapeLib.images)
            ShapeLib.resnet18_world
          = (inr {[ "mask"%string := [2; 1; 512; 512] ]},
             ShapeLib.resnet18_world, ShapeLib.resnet18_forward_trace))
    as Hfwd by (vm_compute; reflexivity).
  split; [exact shape_lib_conv1x1_contract |].
  split; [exact shape_lib_interpolate_contract |].
  split; [exact Hmem |]. split; [exact Hrun |]. split; [exact Hfwd |].
  exact (factory_model_mask ShapeLib.lib _ _ _ _ _ _ _ _ _ _ _ _ _ _
           shape_lib_conv1x1_contract shape_lib_interpolate_contract
           Hmem Hrun Hfwd).
Defined.

(** [b0_unet32] is an EfficientNet factory: its body is the same for every
    [pretrained]. *)
Lemma pretrained_ignored_by_efficientnet_witness :
  ShapeLib.b0_def ∈ module_functions
  ∧ fn_name ShapeLib.b0_def ∈ efficientnet_factories
  ∧ ∀ ic nc p pre pre',
      fn_body ShapeLib.b0_def ic nc p pre = fn_body ShapeLib.b0_def ic nc p pre'.
Proof.
  assert (ShapeLib.b0_def ∈ module_functions) as Hmem
    by (do 12 apply list_elem_of_further; apply list_elem_of_here).
  assert (fn_name ShapeLib.b0_def ∈ efficientnet_factories) as Hin
    by apply list_elem_of_here.
  split; [exact Hmem |]. split; [exact Hin |].
  destruct (pretrained_ignored_by_efficientnet ShapeLib.b0_def Hmem)
    as [_ Hsame].
  exact (Hsame Hin).
Defined.


(** The module executed where [catalyst.registry] is missing: ten imports,
    the eleventh raises, nothing is registered.  And executed into a
    registry that already holds the third name: eleven imports, two
    registrations, the third is refused. *)
Lemma module_body_calls_witness :
  run ShapeLib.lib module_body ShapeLib.no_catalyst_world
  = (inl (LibraryError ShapeLib.no_catalyst_error), ShapeLib.no_catalyst_world,
     ShapeLib.no_catalyst_trace)
  ∧ registry_calls ShapeLib.no_catalyst_trace = []
  ∧ run ShapeLib.lib module_body ShapeLib.taken_world
    = (inl (LibraryError ShapeLib.taken_error), ShapeLib.taken_world_after,
       ShapeLib.taken_body_trace)
  ∧ import_calls ShapeLib.taken_body_trace = import_statements.*1
  ∧ registry_calls ShapeLib.taken_body_trace
    `prefix_of` (fn_name <$> module_functions)
  ∧ last (ev_failed <$> ShapeLib.taken_body_trace) = Some true.
Proof.
  assert (run ShapeLib.lib module_body ShapeLib.no_catalyst_world
          = (inl (LibraryError ShapeLib.no_catalyst_error),
             ShapeLib.no_catalyst_world, ShapeLib.no_catalyst_trace))
    as Hmissing by (vm_compute; reflexivity).
  assert (run ShapeLib.lib module_body ShapeLib.taken_world
          = (inl (LibraryError ShapeLib.taken_error),
             ShapeLib.taken_world_after, ShapeLib.taken_body_trace))
    as Htaken by (vm_compute; reflexivity).
  destruct (module_body_calls ShapeLib.lib _ _ _ _ Hmissing)
    as (_ & _ & _ & _ & Hnone & _ & _).
  destruct (module_body_calls ShapeLib.lib _ _ _ _ Htaken)
    as (_ & _ & Hprefix & Hall & _ & _ & Hlast).
  assert (failed_imports ShapeLib.no_catalyst_trace ≠ [])
    as Hcut by (intros Heq; discriminate Heq).
  assert (registry_calls ShapeLib.taken_body_trace ≠ [])
    as Hsome by (intros Heq; discriminate Heq).
  split_and!; [exact Hmissing | exact (proj2 (Hnone Hcut)) | exact Htaken
              | exact (Hall Hsome) | exact Hprefix | exact (Hlast eq_refl)].
Defined.

(** A construction from the empty list on an encoder with one feature map:
    three calls, then [IndexError]. *)
Lemma init_subscript_failure_witness :
  (¬ ∃ c0 rest, ListChannels [] = ListChannels (c0 :: rest))
  ∧ run ShapeLib.lib (__init__ 0%nat (ListChannels []) None None None None)
      ShapeLib.one_map_world
    = (inl IndexError, ShapeLib.one_map_world, ShapeLib.empty_channels_trace)
  ∧ conv1x1_calls ShapeLib.empty_channels_trace = []
  ∧ (existsb ev_failed ShapeLib.empty_channels_trace = false →
     ∃ (fm dec : list Z) (ld : ShapeLib.layer),
       ShapeLib.empty_channels_trace
       = [Ev (channels 0%nat) (inr fm);
          Ev (decoder_new fm (ListChannels []) (UnetBlock (ABN "relu"))
                UpsamplingNearest2d) (inr dec);
          Ev (Dropout2d 0.25%Q) (inr ld)]
       ∧ (inl IndexError : exn + UnetSegmentationModel) = inl IndexError).
Proof.
  assert (¬ ∃ c0 rest, ListChannels [] = ListChannels (c0 :: rest)) as Hch
    by (intros (c0 & rest & Heq); discriminate Heq).
  assert (run ShapeLib.lib
            (__init__ 0%nat (ListChannels []) None None None None)
            ShapeLib.one_map_world
          = (inl IndexError, ShapeLib.one_map_world,
             ShapeLib.empty_channels_trace)) as Hrun by reflexivity.
  split; [exact Hch |]. split; [exact Hrun |].
  exact (init_subscript_failure ShapeLib.lib _ _ _ _ _ _ _ _ _ _ Hch Hrun).
Defined.

(** [resnet18_unet32(input_channels=-1)]: the encoder refuses the count and
    the factory stops after two calls. *)
Lemma factory_encoder_failure_witness :
  ShapeLib.resnet18_def ∈ module_functions
  ∧ ShapeLib.lib _ (encoder_new Resnet18Encoder ShapeLib.resnet18_kwargs)
      ShapeLib.empty_world
    = (inr 0%nat, ShapeLib.resnet18_world)
  ∧ default 3 (Some (-1)) ≠ 3
  ∧ ShapeLib.lib _ (change_input_channels 0%nat (-1)) ShapeLib.resnet18_world
    = (inl ShapeLib.input_channels_error, ShapeLib.resnet18_world)
  ∧ run ShapeLib.lib (fn_body ShapeLib.resnet18_def (Some (-1)) None None None)
      ShapeLib.empty_world
    = (inl (LibraryError ShapeLib.input_channels_error),
       ShapeLib.resnet18_world,
       [Ev (encoder_new Resnet18Encoder ShapeLib.resnet18_kwargs) (inr 0%nat);
        Ev (change_input_channels 0%nat (-1))
          (inl ShapeLib.input_channels_error)]).
Proof.
  assert (ShapeLib.resnet18_def ∈ module_functions) as Hmem
    by apply list_elem_of_here.
  assert (ShapeLib.lib _ (encoder_new Resnet18Encoder ShapeLib.resnet18_kwargs)
            ShapeLib.empty_world
          = (inr 0%nat, ShapeLib.resnet18_world)) as Hnew by reflexivity.
  assert (default 3 (Some (-1)) ≠ 3) as Hic by (intros Heq; discriminate Heq).
  assert (ShapeLib.lib _ (change_input_channels 0%nat (-1))
            ShapeLib.resnet18_world
          = (inl ShapeLib.input_channels_error, ShapeLib.resnet18_world))
    as Hcic by reflexivity.
  destruct (factory_encoder_failure ShapeLib.lib ShapeLib.resnet18_def
              (Some (-1)) None None None ShapeLib.empty_world Hmem)
    as (cls & kw & Hcall & _ & Hpatch).
  cbn in Hcall. injection Hcall as <- <-.
  split_and!; [exact Hmem | exact Hnew | exact Hic | exact Hcic |].
  exact (Hpatch _ _ _ _ Hnew Hic Hcic).
Defined.
